(** * BlitzHash benchmark visualisation: a shallow embedding of
      [viz/plot_results.py] and the properties of its aggregation layer.

    The script loads a table of benchmark measurements with pandas and draws
    three charts with matplotlib.  The embedding keeps

    - the table as a list of rows in load order,
    - [mb_s] as an IEEE-754 binary64 value (numpy's [float64]), through the
      executable specification of [SpecFloat], so that division by zero,
      infinities and NaN behave as they do in the script,
    - [timestamp] and [threads] as integers (numpy's [int64] columns),
    - console output, drawing calls and written image files as a trace of
      events, and Python exceptions as an error result,
    - the instants that pandas can convert to datetimes and matplotlib can
      place on a date axis as a parameter, since these ranges belong to the
      installed libraries. *)

From Stdlib Require Import ZArith String Ascii Bool Lia List.
From Stdlib Require Import Permutation Sorted.
From Stdlib Require Import Floats.SpecFloat.
Import ListNotations.

Local Open Scope Z_scope.

(* ===================================================================== *)
(** ** binary64 arithmetic *)
(* ===================================================================== *)

(** numpy's [float64]. *)
Definition float : Type := spec_float.

Module F64.

Definition prec : Z := 53.
Definition emax : Z := 1024.

Definition add : float -> float -> float := SFadd prec emax.
Definition sub : float -> float -> float := SFsub prec emax.
Definition mul : float -> float -> float := SFmul prec emax.
Definition div : float -> float -> float := SFdiv prec emax.

(** Conversion of an integer to the nearest double (ties to even). *)
Definition of_Z (n : Z) : float := binary_normalize prec emax n 0 false.

Definition zero : float := S754_zero false.
Definition one : float := Eval vm_compute in of_Z 1.
Definition nan : float := S754_nan.
Definition inf : float := S754_infinity false.

Definition eqb : float -> float -> bool := SFeqb.
Definition ltb : float -> float -> bool := SFltb.
Definition leb : float -> float -> bool := SFleb.

Definition is_nan (x : float) : bool :=
  match x with S754_nan => true | _ => false end.

Definition is_inf (x : float) : bool :=
  match x with S754_infinity _ => true | _ => false end.

Definition is_zero (x : float) : bool :=
  match x with S754_zero _ => true | _ => false end.

(** Finite and different from both zeros. *)
Definition is_finite_nonzero (x : float) : bool :=
  match x with S754_finite _ _ _ => true | _ => false end.

End F64.

(* ===================================================================== *)
(** ** Ordered keys (group labels) *)
(* ===================================================================== *)

(** A [groupby] sorts its group keys; the keys of the script are algorithm
    names (compared code point by code point) and thread counts. *)
Class OrdKey (K : Type) := { kcmp : K -> K -> comparison }.

Definition keqb {K} `{OrdKey K} (a b : K) : bool :=
  match kcmp a b with Eq => true | _ => false end.

Definition kltb {K} `{OrdKey K} (a b : K) : bool :=
  match kcmp a b with Lt => true | _ => false end.

#[export] Instance OrdKey_Z : OrdKey Z := { kcmp := Z.compare }.

#[export] Instance OrdKey_string : OrdKey string := { kcmp := String.compare }.

(* ===================================================================== *)
(** ** The pandas operations the script uses *)
(* ===================================================================== *)

Module Pandas.

(** A [Series] of doubles with an index of labels, in positional order. *)
Definition Series (K : Type) : Type := list (K * float).

Definition index {K} (s : Series K) : list K := map fst s.
Definition values {K} (s : Series K) : list float := map snd s.

(** [Series.max()] of an integer column; the empty column has no maximum
    (pandas answers NaN, which no value equals). *)
Definition series_max (col : list Z) : option Z :=
  match col with
  | [] => None
  | x :: rest => Some (fold_left Z.max rest x)
  end.

(** [col == m], where [m] may be the NaN of an empty column. *)
Definition eq_scalar (x : Z) (m : option Z) : bool :=
  match m with
  | Some y => x =? y
  | None => false
  end.

(** *** Sorting, parameterised by its strict order.

    pandas sorts with numpy's default sort, which on short columns is an
    insertion sort; entries that compare equal keep their relative order
    here. *)
Section InsertionSort.
Context {A : Type} (lt : A -> A -> bool).

Fixpoint insert_sorted (x : A) (l : list A) : list A :=
  match l with
  | [] => [x]
  | y :: l' => if lt y x then y :: insert_sorted x l' else x :: l
  end.

Definition insertion_sort (l : list A) : list A :=
  fold_right insert_sorted [] l.
End InsertionSort.

(** *** [groupby(key)['mb_s'].mean()]

    One pass over the rows; each group keeps the number of non-NaN
    observations, a running sum and the compensation term of a Kahan
    summation, as pandas' [group_mean] does.  The groups are kept in
    ascending key order. *)
Record mean_acc := { nobs : Z; sumx : float; compensation : float }.

Definition mean_init : mean_acc :=
  {| nobs := 0; sumx := F64.zero; compensation := F64.zero |}.

Definition mean_step (a : mean_acc) (val : float) : mean_acc :=
  if F64.is_nan val then a
  else
    let y := F64.sub val (compensation a) in
    let t := F64.add (sumx a) y in
    let c := F64.sub (F64.sub t (sumx a)) y in
    {| nobs := nobs a + 1;
       sumx := t;
       compensation := if F64.is_nan c then F64.zero else c |}.

Definition mean_finish (a : mean_acc) : float :=
  if nobs a =? 0 then F64.nan else F64.div (sumx a) (F64.of_Z (nobs a)).

(** Arithmetic mean of a column, NaN entries skipped. *)
Definition mean (vals : list float) : float :=
  mean_finish (fold_left mean_step vals mean_init).

Section GroupBy.
Context {K : Type} `{OrdKey K}.

Fixpoint upsert (k : K) (val : float) (m : list (K * mean_acc))
  : list (K * mean_acc) :=
  match m with
  | [] => [(k, mean_step mean_init val)]
  | (k', a) :: m' =>
      match kcmp k k' with
      | Lt => (k, mean_step mean_init val) :: m
      | Eq => (k', mean_step a val) :: m'
      | Gt => (k', a) :: upsert k val m'
      end
  end.

Definition group_accs (rows : list (K * float)) : list (K * mean_acc) :=
  fold_left (fun m kv => upsert (fst kv) (snd kv) m) rows [].

Definition groupby_mean (rows : list (K * float)) : Series K :=
  map (fun ka => (fst ka, mean_finish (snd ka))) (group_accs rows).

(** [Series.sort_index()]. *)
Definition sort_index (s : Series K) : Series K :=
  insertion_sort (fun a b => kltb (fst a) (fst b)) s.

(** [Series.sort_values()]: ascending, NaN entries last. *)
Definition sort_values (s : Series K) : Series K :=
  insertion_sort (fun a b => F64.ltb (snd a) (snd b))
                 (filter (fun kv => negb (F64.is_nan (snd kv))) s)
  ++ filter (fun kv => F64.is_nan (snd kv)) s.

(** [s / x] for a scalar [x]. *)
Definition series_div (s : Series K) (x : float) : Series K :=
  map (fun kv => (fst kv, F64.div (snd kv) x)) s.

(** [s[label]]: the value at the first entry with that label. *)
Fixpoint series_get (s : Series K) (label : K) : option float :=
  match s with
  | [] => None
  | (k, v) :: s' => if keqb k label then Some v else series_get s' label
  end.

(** [col.unique()]: distinct values in order of first appearance. *)
Definition unique (col : list K) : list K :=
  fold_left (fun seen x => if existsb (keqb x) seen then seen
                           else seen ++ [x]) col [].

(** [col.nunique()]. *)
Definition nunique (col : list K) : nat := length (unique col).
End GroupBy.

End Pandas.

(* ===================================================================== *)
(** ** Effects: console lines, drawing calls, image files, exceptions *)
(* ===================================================================== *)

(** Lines the script prints; formatted numbers are kept as values. *)
Inductive message : Type :=
| MsgBanner                                   (* BlitzHash Benchmark Visualization *)
| MsgNotFound (csv_path : string)             (* Error: <csv_path> not found *)
| MsgRunBenchmarksFirst                       (* Run benchmarks first: ... *)
| MsgLoaded (n : nat)                         (* Loaded <n> benchmark results *)
| MsgChartSaved (output : string)             (* Chart saved: <output> *)
| MsgTableHeader                              (* rule, title, rule, columns, rule *)
| MsgTableRow (algo : string) (mb_s speedup_val : float)
| MsgTableFooter                              (* closing rule *)
| MsgNoParallel                               (* No parallel benchmark data found, ... *)
| MsgNeedThreadCounts                         (* Need multiple thread counts ... *)
| MsgThreadingSaved (output : string)         (* Threading chart saved: <output> *)
| MsgNeedRuns                                 (* Need multiple benchmark runs ... *)
| MsgHistorySaved (output : string)           (* History chart saved: <output> *)
| MsgAllDone.                                 (* All charts generated successfully! *)

Inductive panel : Type := AbsoluteThroughput | RelativePerformance.

Inductive line_kind : Type := Measured | IdealLinearScaling.

Inductive event : Type :=
| Print (m : message)
| BarH (ax : panel) (labels : list string) (widths : list float)
| BarText (ax : panel) (width : float)
| AxVLine (x : Z)
| PlotThreads (kind : line_kind) (xs : list Z) (ys : list float)
| PlotDates (algo : string) (timestamps : list Z) (ys : list float)
| SaveFig (output : string).

Inductive exn : Type :=
| IndexError            (* single positional indexer is out-of-bounds *)
| KeyError (label : string)
| OutOfBoundsDatetime   (* pandas: the instant does not fit the datetime type *)
| ValueError            (* matplotlib: the date is outside the supported years *)
| SystemExit (code : Z).

(** A run of a function: what it did, then how it ended. *)
Definition IO (A : Type) : Type := list event * (exn + A).

Definition ret {A} (a : A) : IO A := ([], inr a).

Definition bind {A B} (m : IO A) (f : A -> IO B) : IO B :=
  match m with
  | (t, inl e) => (t, inl e)
  | (t, inr a) => let (t', r) := f a in (t ++ t', r)
  end.

Definition emit (e : event) : IO unit := ([e], inr tt).

Definition raise {A} (e : exn) : IO A := ([], inl e).

Declare Scope io_scope.
Delimit Scope io_scope with io.
Notation "x <- c1 ;; c2" := (bind c1 (fun x => c2))
  (at level 61, c1 at next level, right associativity) : io_scope.
Notation "c1 ;; c2" := (bind c1 (fun _ => c2))
  (at level 61, right associativity) : io_scope.

Local Open Scope io_scope.

(** [for x in xs: body x]. *)
Fixpoint for_each {A} (xs : list A) (body : A -> IO unit) : IO unit :=
  match xs with
  | [] => ret tt
  | x :: xs' => body x ;; for_each xs' body
  end.

Definition trace {A} (m : IO A) : list event := fst m.
Definition outcome {A} (m : IO A) : exn + A := snd m.

Definition is_savefig (e : event) : bool :=
  match e with SaveFig _ => true | _ => false end.

(** No image file was written during the run. *)
Definition no_image_written {A} (m : IO A) : Prop :=
  forall output, ~ In (SaveFig output) (trace m).

(** The run ended without an exception. *)
Definition returns_normally {A} (m : IO A) : Prop :=
  exists a, outcome m = inr a.

(* ===================================================================== *)
(** ** The data frame *)
(* ===================================================================== *)

Record BenchmarkRecord : Type := {
  timestamp : Z;
  algorithm : string;
  threads : Z;
  mb_s : float
}.

Definition DataFrame : Type := list BenchmarkRecord.

(** [s.iloc[i]]. *)
Definition iloc {K} (s : Pandas.Series K) (i : nat) : IO float :=
  match nth_error s i with
  | Some kv => ret (snd kv)
  | None => raise IndexError
  end.

(** [summary[algo]]. *)
Definition getitem (s : Pandas.Series string) (algo : string) : IO float :=
  match Pandas.series_get s algo with
  | Some v => ret v
  | None => raise (KeyError algo)
  end.

(* ===================================================================== *)
(** ** [load_results] *)
(* ===================================================================== *)

(** The file system as the script sees it: the table stored at a path, if
    the path exists. *)
Definition FileSystem : Type := string -> option DataFrame.

Definition load_results (fs : FileSystem) (csv_path : string) : IO DataFrame :=
  match fs csv_path with
  | None =>
      emit (Print (MsgNotFound csv_path)) ;;
      emit (Print MsgRunBenchmarksFirst) ;;
      raise (SystemExit 1)
  | Some df =>
      emit (Print (MsgLoaded (length df))) ;;
      ret df
  end.

(* ===================================================================== *)
(** ** [plot_throughput_comparison] *)
(* ===================================================================== *)

(** The most recent benchmark run. *)
Definition latest_run (df : DataFrame) : DataFrame :=
  let latest_timestamp := Pandas.series_max (map timestamp df) in
  filter (fun r => Pandas.eq_scalar (timestamp r) latest_timestamp) df.

(** [latest.groupby('algorithm')['mb_s'].mean().sort_values()]. *)
Definition run_summary (df : DataFrame) : Pandas.Series string :=
  Pandas.sort_values
    (Pandas.groupby_mean (map (fun r => (algorithm r, mb_s r)) (latest_run df))).

Definition plot_throughput_comparison (df : DataFrame) (output : string)
  : IO unit :=
  let summary := run_summary df in
  (* bar chart, absolute throughput *)
  emit (BarH AbsoluteThroughput (Pandas.index summary) (Pandas.values summary)) ;;
  for_each (Pandas.values summary)
           (fun width => emit (BarText AbsoluteThroughput width)) ;;
  (* speedup chart *)
  baseline <- iloc summary 0 ;;
  let speedup := Pandas.series_div summary baseline in
  emit (BarH RelativePerformance (Pandas.index speedup) (Pandas.values speedup)) ;;
  emit (AxVLine 1) ;;
  for_each (Pandas.values speedup)
           (fun width => emit (BarText RelativePerformance width)) ;;
  emit (SaveFig output) ;;
  emit (Print (MsgChartSaved output)) ;;
  (* summary table *)
  emit (Print MsgTableHeader) ;;
  for_each (Pandas.index summary)
           (fun algo =>
              mb_s <- getitem summary algo ;;
              let speedup_val := F64.div mb_s baseline in
              emit (Print (MsgTableRow algo mb_s speedup_val))) ;;
  emit (Print MsgTableFooter).

(* ===================================================================== *)
(** ** [plot_threading_scaling] *)
(* ===================================================================== *)

Definition parallel_label : string := "BlitzHash-MT".

Definition parallel_rows (df : DataFrame) : DataFrame :=
  filter (fun r => String.eqb (algorithm r) parallel_label) df.

(** [parallel.groupby('threads')['mb_s'].mean().sort_index()]. *)
Definition by_threads_of (parallel : DataFrame) : Pandas.Series Z :=
  Pandas.sort_index
    (Pandas.groupby_mean (map (fun r => (threads r, mb_s r)) parallel)).

Definition scaling_curve (df : DataFrame) : Pandas.Series Z :=
  by_threads_of (parallel_rows df).

(** The ideal linear scaling line, with its guard. *)
Definition ideal_line (by_threads : Pandas.Series Z) : IO unit :=
  if (0 <? length by_threads)%nat then
    single_thread_speed <- iloc by_threads 0 ;;
    let ideal := map (fun t => F64.mul single_thread_speed (F64.of_Z t))
                     (Pandas.index by_threads) in
    emit (PlotThreads IdealLinearScaling (Pandas.index by_threads) ideal)
  else ret tt.

Definition plot_threading_scaling (df : DataFrame) (output : string)
  : IO unit :=
  let parallel := parallel_rows df in
  if (length parallel =? 0)%nat then
    emit (Print MsgNoParallel)
  else
    let by_threads := by_threads_of parallel in
    if (length by_threads <? 2)%nat then
      emit (Print MsgNeedThreadCounts)
    else
      emit (PlotThreads Measured (Pandas.index by_threads)
                        (Pandas.values by_threads)) ;;
      ideal_line by_threads ;;
      emit (SaveFig output) ;;
      emit (Print (MsgThreadingSaved output)).

(* ===================================================================== *)
(** ** [plot_history] *)
(* ===================================================================== *)

(** [df.sort_values('timestamp')]. *)
Definition sort_by_timestamp (df : DataFrame) : DataFrame :=
  Pandas.insertion_sort (fun a b => timestamp a <? timestamp b) df.

(** [df[df['algorithm'] == algo].sort_values('timestamp')]. *)
Definition algo_data (df : DataFrame) (algo : string) : DataFrame :=
  sort_by_timestamp (filter (fun r => String.eqb (algorithm r) algo) df).

(** What the date libraries can represent.  [pd.to_datetime(..., unit='s')]
    raises [OutOfBoundsDatetime] for an instant outside the range of its
    datetime type, and matplotlib raises [ValueError] when it lays out a
    date axis that reaches outside the years it supports.  Both ranges
    belong to the installed libraries, not to the script, so they are taken
    as given. *)
Record DateSupport : Type := {
  datetime_in_bounds : Z -> bool;
  date_axis_in_range : list Z -> bool
}.

(** [pd.to_datetime(col, unit='s')]: the same instants as datetimes. *)
Definition to_datetime (dates : DateSupport) (col : list Z) : IO (list Z) :=
  if forallb (datetime_in_bounds dates) col then ret col
  else raise OutOfBoundsDatetime.

(** [plt.xticks(rotation=45)]: places the ticks of the date axis over
    everything plotted so far. *)
Definition xticks (dates : DateSupport) (plotted : list Z) : IO unit :=
  if date_axis_in_range dates plotted then ret tt else raise ValueError.

(** The x values of all the lines of the history chart, in plot order. *)
Definition plotted_instants (df : DataFrame) : list Z :=
  flat_map (fun algo => map timestamp (algo_data df algo))
           (Pandas.unique (map algorithm df)).

Definition plot_history (dates : DateSupport) (df : DataFrame)
  (output : string) : IO unit :=
  if (Pandas.nunique (map timestamp df) <? 2)%nat then
    emit (Print MsgNeedRuns)
  else
    for_each (Pandas.unique (map algorithm df))
             (fun algo =>
                let data := algo_data df algo in
                timestamps <- to_datetime dates (map timestamp data) ;;
                emit (PlotDates algo timestamps (map mb_s data))) ;;
    xticks dates (plotted_instants df) ;;
    emit (SaveFig output) ;;
    emit (Print (MsgHistorySaved output)).

(* ===================================================================== *)
(** ** [main] *)
(* ===================================================================== *)

Definition main (dates : DateSupport) (fs : FileSystem) : IO unit :=
  emit (Print MsgBanner) ;;
  df <- load_results fs "bench_results.csv" ;;
  plot_throughput_comparison df "bench_plot.png" ;;
  plot_threading_scaling df "threading_plot.png" ;;
  plot_history dates df "history_plot.png" ;;
  emit (Print MsgAllDone).

(* ===================================================================== *)
(** ** Sample tables *)
(* ===================================================================== *)

Definition f64 (n : Z) : float := F64.of_Z n.

Definition row (ts : Z) (algo : string) (t : Z) (v : float) : BenchmarkRecord :=
  {| timestamp := ts; algorithm := algo; threads := t; mb_s := v |}.

(** The scenario of three algorithms measured in one run. *)
Definition df_scenario : DataFrame :=
  [ row 100 "SHA-256" 1 (f64 50);
    row 100 "BlitzHash" 1 (f64 200);
    row 100 "BlitzHash-MT" 4 (f64 600) ].

(** Thread-scaling measurements 1:100, 2:180, 4:300. *)
Definition df_scaling : DataFrame :=
  [ row 100 "BlitzHash-MT" 1 (f64 100);
    row 100 "BlitzHash-MT" 2 (f64 180);
    row 100 "BlitzHash-MT" 4 (f64 300) ].

(** A one-row table whose only measurement is 0 MB/s. *)
Definition df_zero_only : DataFrame := [ row 100 "SHA-256" 1 F64.zero ].

(** A table whose slowest algorithm measured 0 MB/s. *)
Definition df_zero_baseline : DataFrame :=
  [ row 100 "SHA-256" 1 F64.zero; row 100 "BlitzHash" 1 (f64 200) ].

(** A file system that holds an empty table (a header and no data rows)
    at every path. *)
Definition fs_empty_table : FileSystem := fun _ => Some [].

(** A table with an older run before and after the rows of the latest. *)
Definition df_two_runs : DataFrame :=
  [ row 50 "SHA-256" 1 (f64 40);
    row 100 "SHA-256" 1 (f64 50);
    row 100 "BlitzHash" 1 (f64 200);
    row 50 "BlitzHash" 1 (f64 900) ].

(** Two runs of the parallel variant on one thread. *)
Definition df_parallel_two_runs : DataFrame :=
  [ row 50 "BlitzHash-MT" 1 (f64 100); row 100 "BlitzHash-MT" 1 (f64 300) ].

(** A table with two rows for the same algorithm in the same run. *)
Definition df_repeated : DataFrame :=
  [ row 100 "SHA-256" 1 (f64 50);
    row 50 "SHA-256" 1 (f64 40);
    row 100 "SHA-256" 1 (f64 60);
    row 100 "BlitzHash" 1 (f64 200) ].

(* ===================================================================== *)
(** ** Vocabulary of the statements *)
(* ===================================================================== *)

(** The comparison of keys is a strict total order. *)
Class OrdKeyLaws (K : Type) `{OrdKey K} := {
  kcmp_eq : forall a b : K, kcmp a b = Eq <-> a = b;
  kcmp_antisym : forall a b : K, kcmp b a = CompOpp (kcmp a b);
  kcmp_trans : forall a b c : K, kcmp a b = Lt -> kcmp b c = Lt -> kcmp a c = Lt
}.

Section KeyedVocabulary.
Context {K : Type} `{OrdKey K}.

(** Strictly ascending keys. *)
Definition key_sorted {X} (m : list (K * X)) : Prop :=
  StronglySorted (fun a b => kcmp (fst a) (fst b) = Lt) m.

(** The accumulator of group [k], the initial one if the group is absent. *)
Fixpoint acc_get (k : K) (m : list (K * Pandas.mean_acc)) : Pandas.mean_acc :=
  match m with
  | [] => Pandas.mean_init
  | (k', a) :: m' => if keqb k' k then a else acc_get k m'
  end.

(** The values of the rows of group [k], in row order. *)
Definition group_values (k : K) (rows : list (K * float)) : list float :=
  map snd (filter (fun kv => keqb (fst kv) k) rows).

Definition upsert_row (m : list (K * Pandas.mean_acc)) (kv : K * float) :=
  Pandas.upsert (fst kv) (snd kv) m.

Definition unique_step (seen : list K) (x : K) : list K :=
  if existsb (keqb x) seen then seen else seen ++ [x].

End KeyedVocabulary.

(** The rows of the summary table, one per entry of the summary. *)
Definition table_rows (summary : Pandas.Series string) (baseline : float)
  : list event :=
  map (fun kv => Print (MsgTableRow (fst kv) (snd kv)
                                    (F64.div (snd kv) baseline))) summary.

(** What a completed run of [plot_throughput_comparison] does, given the
    summary and the baseline it divides by. *)
Definition comparison_trace (summary : Pandas.Series string) (baseline : float)
  (output : string) : list event :=
  let speedup := Pandas.series_div summary baseline in
  [BarH AbsoluteThroughput (Pandas.index summary) (Pandas.values summary)]
  ++ map (BarText AbsoluteThroughput) (Pandas.values summary)
  ++ [BarH RelativePerformance (Pandas.index speedup) (Pandas.values speedup);
      AxVLine 1]
  ++ map (BarText RelativePerformance) (Pandas.values speedup)
  ++ [SaveFig output; Print (MsgChartSaved output); Print MsgTableHeader]
  ++ table_rows summary baseline
  ++ [Print MsgTableFooter].

(** The per-algorithm means of the latest run, before they are sorted. *)
Definition latest_means (df : DataFrame) : Pandas.Series string :=
  Pandas.groupby_mean (map (fun r => (algorithm r, mb_s r)) (latest_run df)).

(** The rows behind the point of the curve at thread count [t]. *)
Definition rows_at (df : DataFrame) (t : Z) : DataFrame :=
  filter (fun r => String.eqb (algorithm r) parallel_label && (threads r =? t)) df.

(** What a completed run of [plot_threading_scaling] does. *)
Definition scaling_trace (by_threads : Pandas.Series Z)
  (single_thread_speed : float) (output : string) : list event :=
  [ PlotThreads Measured (Pandas.index by_threads) (Pandas.values by_threads);
    PlotThreads IdealLinearScaling (Pandas.index by_threads)
      (map (fun t => F64.mul single_thread_speed (F64.of_Z t))
           (Pandas.index by_threads));
    SaveFig output;
    Print (MsgThreadingSaved output) ].

(** The same measurement moved to another run. *)
Definition with_timestamp (ts : Z) (r : BenchmarkRecord) : BenchmarkRecord :=
  {| timestamp := ts; algorithm := algorithm r;
     threads := threads r; mb_s := mb_s r |}.

(** The line drawn for one algorithm. *)
Definition history_line (df : DataFrame) (algo : string) : event :=
  PlotDates algo (map timestamp (algo_data df algo))
                 (map mb_s (algo_data df algo)).

(** The image files a trace writes, in order. *)
Fixpoint saved_images (t : list event) : list string :=
  match t with
  | [] => []
  | SaveFig output :: t' => output :: saved_images t'
  | _ :: t' => saved_images t'
  end.

(** The rows of the summary table a trace prints, in order. *)
Fixpoint printed_rows (t : list event) : list (string * float * float) :=
  match t with
  | [] => []
  | Print (MsgTableRow algo mb speedup_val) :: t' =>
      (algo, mb, speedup_val) :: printed_rows t'
  | _ :: t' => printed_rows t'
  end.

(** The number of points on the history lines a trace draws. *)
Fixpoint plotted_points (t : list event) : nat :=
  match t with
  | [] => 0%nat
  | PlotDates _ _ ys :: t' => (length ys + plotted_points t')%nat
  | _ :: t' => plotted_points t'
  end.

(** A double as a CSV cell can hold it: NaN, an infinity, a zero, or a
    finite value in canonical binary64 form. *)
Definition is_binary64 (x : float) : bool := valid_binary F64.prec F64.emax x.

(** A file system that holds the table [df] at every path. *)
Definition fs_with (df : DataFrame) : FileSystem := fun _ => Some df.

(** A file system without any file. *)
Definition fs_without_files : FileSystem := fun _ => None.

(** The parallel variant measured twice, both times on four threads. *)
Definition df_one_thread_count : DataFrame :=
  [ row 100 "SHA-256" 1 (f64 50);
    row 100 "BlitzHash-MT" 4 (f64 600);
    row 200 "BlitzHash-MT" 4 (f64 620) ].

(** Two runs, the second with the parallel variant on two thread counts. *)
Definition df_full : DataFrame :=
  [ row 100 "SHA-256" 1 (f64 50);
    row 200 "SHA-256" 1 (f64 52);
    row 200 "BlitzHash-MT" 1 (f64 100);
    row 200 "BlitzHash-MT" 4 (f64 300) ].

(** Whether the date libraries can show the history of a table: every
    timestamp converts and the axis over all of them can be laid out. *)
Definition history_drawable (dates : DateSupport) (df : DataFrame) : bool :=
  forallb (fun r => datetime_in_bounds dates (timestamp r)) df
  && date_axis_in_range dates (plotted_instants df).

(** Whole seconds from the epoch that fit pandas' nanosecond timestamps
    ([pd.Timestamp.min] is in 1677, [pd.Timestamp.max] in 2262). *)
Definition in_nanosecond_bounds (ts : Z) : bool :=
  (-9223372036 <=? ts) && (ts <=? 9223372036).

(** pandas with nanosecond timestamps; a date axis over instants within
    these bounds stays inside the years matplotlib supports. *)
Definition datetime64_ns : DateSupport :=
  {| datetime_in_bounds := in_nanosecond_bounds;
     date_axis_in_range := forallb in_nanosecond_bounds |}.

(** A table whose first algorithm carries the largest 64-bit timestamp. *)
Definition df_far_future : DataFrame :=
  [ row 9223372036854775807 "SHA-256" 1 (f64 50);
    row 1 "BlitzHash" 1 (f64 200) ].

(** Two runs whose timestamps were written in milliseconds. *)
Definition df_milliseconds : DataFrame :=
  [ row 1700000000000 "SHA-256" 1 (f64 50);
    row 1700000060000 "SHA-256" 1 (f64 52) ].

(* ===================================================================== *)
(** * Properties *)
(* ===================================================================== *)

(** ** Facts of binary64 arithmetic used below *)

Module F64Facts.

(** A finite non-zero double divided by itself is exactly 1.0: the
    quotient of the mantissas is a power of two with remainder zero, so
    no rounding takes place. *)
Lemma div_eucl_self_pow2 (m : positive) :
  Z.div_eucl (Z.pos m * 2 ^ 53) (Z.pos m) = (2 ^ 53, 0).
Proof.
  pose proof (Z.div_mul (2 ^ 53) (Z.pos m)) as Hd.
  pose proof (Z.mod_mul (2 ^ 53) (Z.pos m)) as Hm.
  unfold Z.modulo, Z.div in Hd, Hm.
  rewrite (Z.mul_comm (Z.pos m)).
  destruct (Z.div_eucl (2 ^ 53 * Z.pos m) (Z.pos m)) as [q r].
  rewrite Hd, Hm by lia. reflexivity.
Qed.

Lemma new_location_exact (m : Z) : new_location m 0 = loc_Exact.
Proof.
  unfold new_location, new_location_even, new_location_odd.
  destruct (Z.even m); reflexivity.
Qed.

Lemma div_self (x : float) :
  F64.is_finite_nonzero x = true -> F64.div x x = F64.one.
Proof.
  destruct x as [s|s| |s m e]; try discriminate. intros _.
  unfold F64.div, SFdiv, SFdiv_core_binary.
  replace (Zdigits2 (Z.pos m) + e - (Zdigits2 (Z.pos m) + e)) with 0 by lia.
  replace (e - e) with 0 by lia.
  change (Z.min (fexp F64.prec F64.emax 0) 0) with (-53).
  change (0 - -53) with 53.
  cbv iota beta zeta.
  rewrite Z.shiftl_mul_pow2 by lia.
  rewrite div_eucl_self_pow2, new_location_exact, xorb_nilpotent.
  vm_compute. reflexivity.
Qed.

(** Dividing by a zero never gives a finite value: NaN for a zero or NaN
    numerator, an infinity otherwise. *)
Lemma div_by_zero (x z : float) :
  F64.is_zero z = true ->
  F64.div x z = (if F64.is_zero x || F64.is_nan x then F64.nan
                 else F64.div x z)
  /\ (F64.is_nan (F64.div x z) || F64.is_inf (F64.div x z) = true).
Proof.
  destruct z as [sz|sz| |sz mz ez]; try discriminate. intros _.
  destruct x as [sx|sx| |sx mx ex]; split; reflexivity.
Qed.

Lemma div_zero_zero (x z : float) :
  F64.is_zero x = true -> F64.is_zero z = true -> F64.div x z = F64.nan.
Proof.
  destruct x as [sx|sx| |sx mx ex]; try discriminate.
  destruct z as [sz|sz| |sz mz ez]; try discriminate. reflexivity.
Qed.

Lemma div_finite_zero (x z : float) :
  F64.is_finite_nonzero x = true -> F64.is_zero z = true ->
  F64.is_inf (F64.div x z) = true.
Proof.
  destruct x as [sx|sx| |sx mx ex]; try discriminate.
  destruct z as [sz|sz| |sz mz ez]; try discriminate. reflexivity.
Qed.

(** The order of the doubles, NaN excluded, is a total preorder. *)
Lemma leb_trans (x y z : float) :
  F64.leb x y = true -> F64.leb y z = true -> F64.leb x z = true.
Proof.
  unfold F64.leb, SFleb.
  destruct x as [sx|sx| |sx mx ex], y as [sy|sy| |sy my ey],
           z as [sz|sz| |sz mz ez];
    try destruct sx; try destruct sy; try destruct sz; cbn; try easy;
    change (Pos.compare_cont Eq) with Pos.compare;
    destruct (Z.compare_spec ex ey); destruct (Z.compare_spec ey ez);
    destruct (Z.compare_spec ex ez); try lia; cbn; try easy;
    destruct (Pos.compare_spec mx my); destruct (Pos.compare_spec my mz);
    destruct (Pos.compare_spec mx mz); try lia; cbn; easy.
Qed.

Lemma not_ltb_leb (x y : float) :
  F64.is_nan x = false -> F64.is_nan y = false ->
  F64.ltb y x = false -> F64.leb x y = true.
Proof.
  unfold F64.leb, F64.ltb, SFleb, SFltb.
  destruct x as [sx|sx| |sx mx ex], y as [sy|sy| |sy my ey];
    try destruct sx; try destruct sy; cbn; intros; try congruence; auto;
    change (Pos.compare_cont Eq) with Pos.compare in *;
    destruct (Z.compare_spec ex ey); try lia; cbn in *; auto;
    destruct (Z.compare_spec ey ex); try lia; cbn in *; auto;
    try congruence;
    destruct (Pos.compare_spec mx my); destruct (Pos.compare_spec my mx);
    try lia; cbn in *; auto; congruence.
Qed.

Lemma ltb_leb (x y : float) : F64.ltb x y = true -> F64.leb x y = true.
Proof.
  unfold F64.leb, F64.ltb, SFleb, SFltb.
  destruct (SFcompare x y) as [[| |]|]; easy.
Qed.

Lemma leb_refl (x : float) : F64.is_nan x = false -> F64.leb x x = true.
Proof.
  intros Hx. apply not_ltb_leb; auto.
  unfold F64.ltb, SFltb.
  destruct x as [s|s| |s m e]; try destruct s; cbn; try easy;
    rewrite Z.compare_refl; change (Pos.compare_cont Eq m m) with (Pos.compare m m);
    rewrite Pos.compare_refl; reflexivity.
Qed.

End F64Facts.

(** ** Facts of the sorting routine *)

Section InsertionSortFacts.
Context {A : Type} (lt : A -> A -> bool).

Lemma insert_sorted_perm (x : A) (l : list A) :
  Permutation (Pandas.insert_sorted lt x l) (x :: l).
Proof.
  induction l as [|y l IH]; simpl; [reflexivity|].
  destruct (lt y x); [|reflexivity].
  rewrite IH. apply perm_swap.
Qed.

Lemma insertion_sort_perm (l : list A) :
  Permutation (Pandas.insertion_sort lt l) l.
Proof.
  induction l as [|x l IH]; simpl; [reflexivity|].
  rewrite insert_sorted_perm. now constructor.
Qed.

(** Sorting puts the elements in order, for any preorder [le] that the
    test [lt] decides on the elements satisfying [dom]. *)
Section Sorted.
Variable le : A -> A -> Prop.
Variable dom : A -> Prop.
Hypothesis le_trans : forall x y z, le x y -> le y z -> le x z.
Hypothesis lt_le : forall x y, lt x y = true -> le x y.
Hypothesis not_lt_le :
  forall x y, dom x -> dom y -> lt y x = false -> le x y.

Lemma insert_sorted_sorted (x : A) (l : list A) :
  dom x -> Forall dom l ->
  StronglySorted le l -> StronglySorted le (Pandas.insert_sorted lt x l).
Proof.
  intros Hx Hdom Hs. induction Hs as [|y l Hs IH Hy]; simpl.
  - repeat constructor.
  - inversion Hdom as [|? ? Hdy Hdl]; subst.
    destruct (lt y x) eqn:E.
    + constructor; [auto|].
      apply (Permutation_Forall (Permutation_sym (insert_sorted_perm x l))).
      constructor; auto.
    + assert (Hxy : le x y) by auto.
      constructor; [constructor; auto|].
      constructor; [exact Hxy|].
      eapply Forall_impl; [|exact Hy]. intros z Hz. eauto.
Qed.

Lemma insertion_sort_sorted (l : list A) :
  Forall dom l -> StronglySorted le (Pandas.insertion_sort lt l).
Proof.
  induction 1 as [|x l Hx Hl IH]; simpl; [constructor|].
  apply insert_sorted_sorted; auto.
  apply (Permutation_Forall (Permutation_sym (insertion_sort_perm l))).
  exact Hl.
Qed.
End Sorted.

(** A list whose every element is not above its successors is left as it
    is. *)
Lemma insertion_sort_id (l : list A) :
  StronglySorted (fun a b => lt b a = false) l ->
  Pandas.insertion_sort lt l = l.
Proof.
  induction 1 as [|x l Hs IH Hx]; simpl; [reflexivity|].
  rewrite IH. destruct l as [|y l']; simpl; [reflexivity|].
  inversion Hx as [|? ? Hxy _]; subst. now rewrite Hxy.
Qed.
End InsertionSortFacts.

(** ** Facts of the ordered keys *)

Lemma Z_compare_trans (a b c : Z) :
  (a ?= b) = Lt -> (b ?= c) = Lt -> (a ?= c) = Lt.
Proof. rewrite !Z.compare_lt_iff. lia. Qed.

#[export] Instance OrdKeyLaws_Z : OrdKeyLaws Z := {
  kcmp_eq := Z.compare_eq_iff;
  kcmp_antisym := Z.compare_antisym;
  kcmp_trans := Z_compare_trans
}.

Lemma ascii_compare_refl (c : ascii) : Ascii.compare c c = Eq.
Proof. unfold Ascii.compare. apply N.compare_refl. Qed.

Lemma ascii_compare_trans (a b c : ascii) :
  Ascii.compare a b = Lt -> Ascii.compare b c = Lt -> Ascii.compare a c = Lt.
Proof. unfold Ascii.compare. rewrite !N.compare_lt_iff. lia. Qed.

Lemma string_compare_refl (s : string) : String.compare s s = Eq.
Proof.
  induction s as [|c s IH]; simpl; [reflexivity|].
  now rewrite ascii_compare_refl.
Qed.

Lemma string_compare_eq (a b : string) : String.compare a b = Eq <-> a = b.
Proof.
  split; [apply String.compare_eq_iff | intros ->; apply string_compare_refl].
Qed.

Lemma string_compare_trans (a b c : string) :
  String.compare a b = Lt -> String.compare b c = Lt -> String.compare a c = Lt.
Proof.
  revert b c. induction a as [|x a IH]; intros [|y b] [|z c]; simpl;
    try easy.
  destruct (Ascii.compare x y) eqn:Exy; try easy;
    destruct (Ascii.compare y z) eqn:Eyz; try easy; intros Hab Hbc.
  - apply Ascii.compare_eq_iff in Exy, Eyz. subst.
    rewrite ascii_compare_refl. eauto.
  - apply Ascii.compare_eq_iff in Exy. subst. now rewrite Eyz.
  - apply Ascii.compare_eq_iff in Eyz. subst. now rewrite Exy.
  - now rewrite (ascii_compare_trans _ _ _ Exy Eyz).
Qed.

#[export] Instance OrdKeyLaws_string : OrdKeyLaws string := {
  kcmp_eq := string_compare_eq;
  kcmp_antisym := fun a b => String.compare_antisym b a;
  kcmp_trans := string_compare_trans
}.

Section OrdKeyFacts.
Context {K : Type} `{OrdKey K} `{!OrdKeyLaws K}.

Lemma kcmp_refl (a : K) : kcmp a a = Eq.
Proof. now apply kcmp_eq. Qed.

Lemma kcmp_gt_lt (a b : K) : kcmp a b = Gt -> kcmp b a = Lt.
Proof. intros E. rewrite kcmp_antisym, E. reflexivity. Qed.

Lemma kcmp_lt_neq (a b : K) : kcmp a b = Lt -> a <> b.
Proof. intros E ->. rewrite kcmp_refl in E. discriminate. Qed.

Lemma keqb_spec (a b : K) : reflect (a = b) (keqb a b).
Proof.
  unfold keqb. destruct (kcmp a b) eqn:E; constructor.
  - now apply kcmp_eq.
  - now apply kcmp_lt_neq.
  - intros ->. rewrite kcmp_refl in E. discriminate.
Qed.

Lemma keqb_refl (a : K) : keqb a a = true.
Proof. now destruct (keqb_spec a a). Qed.

Lemma keqb_sym (a b : K) : keqb a b = keqb b a.
Proof. destruct (keqb_spec a b), (keqb_spec b a); congruence. Qed.

Lemma kltb_asym (a b : K) : kcmp a b = Lt -> kltb b a = false.
Proof. intros E. unfold kltb. rewrite kcmp_antisym, E. reflexivity. Qed.
End OrdKeyFacts.

Lemma keqb_string (a b : string) : keqb a b = String.eqb a b.
Proof.
  destruct (keqb_spec a b), (String.eqb_spec a b); congruence.
Qed.

Lemma keqb_Z (a b : Z) : keqb a b = (a =? b).
Proof.
  destruct (keqb_spec a b), (Z.eqb_spec a b); congruence.
Qed.

(** ** Facts of [groupby(...).mean()] *)

Section GroupByFacts.
Context {K : Type} `{OrdKey K} `{!OrdKeyLaws K}.

Lemma key_sorted_NoDup {X} (m : list (K * X)) :
  key_sorted m -> NoDup (map fst m).
Proof.
  induction 1 as [|x m Hs IH Hx]; simpl; constructor; auto.
  intros Hin. apply in_map_iff in Hin. destruct Hin as [y [Hy Hin]].
  rewrite Forall_forall in Hx. specialize (Hx y Hin).
  apply kcmp_lt_neq in Hx. congruence.
Qed.

Lemma acc_get_below (k : K) (m : list (K * Pandas.mean_acc)) :
  Forall (fun ka => kcmp k (fst ka) = Lt) m -> acc_get k m = Pandas.mean_init.
Proof.
  induction 1 as [|[k' a] m Hk Hm IH]; simpl; [reflexivity|].
  simpl in Hk. destruct (keqb_spec k' k) as [->|]; [|exact IH].
  rewrite kcmp_refl in Hk. discriminate.
Qed.

Lemma acc_get_In (k : K) (a : Pandas.mean_acc) (m : list (K * Pandas.mean_acc)) :
  key_sorted m -> In (k, a) m -> acc_get k m = a.
Proof.
  induction 1 as [|[k' a'] m Hs IH Hx]; simpl; [easy|].
  intros [E|Hin].
  - inversion E; subst. now rewrite keqb_refl.
  - destruct (keqb_spec k' k) as [->|]; [|auto].
    rewrite Forall_forall in Hx. specialize (Hx _ Hin). simpl in Hx.
    rewrite kcmp_refl in Hx. discriminate.
Qed.

Lemma upsert_keys (k : K) (v : float) (m : list (K * Pandas.mean_acc)) (k' : K) :
  In k' (map fst (Pandas.upsert k v m)) <-> k' = k \/ In k' (map fst m).
Proof.
  induction m as [|[k0 a] m IH]; simpl; [intuition|].
  destruct (kcmp k k0) eqn:E; simpl.
  - apply kcmp_eq in E. subst. intuition.
  - intuition.
  - rewrite IH. intuition.
Qed.

Lemma upsert_sorted (k : K) (v : float) (m : list (K * Pandas.mean_acc)) :
  key_sorted m -> key_sorted (Pandas.upsert k v m).
Proof.
  induction 1 as [|[k0 a] m Hs IH Hx]; simpl.
  - repeat constructor.
  - destruct (kcmp k k0) eqn:E.
    + constructor; auto.
    + constructor; [constructor; auto|].
      constructor; [exact E|].
      eapply Forall_impl; [|exact Hx]. simpl. intros z Hz.
      eapply kcmp_trans; eauto.
    + constructor; [exact IH|].
      rewrite Forall_forall in *. intros [k1 a1] Hin. simpl.
      assert (Hk : In k1 (map fst (Pandas.upsert k v m)))
        by (apply in_map_iff; exists (k1, a1); auto).
      apply upsert_keys in Hk. destruct Hk as [->|Hk].
      * now apply kcmp_gt_lt.
      * apply in_map_iff in Hk. destruct Hk as [[k2 a2] [E2 Hin2]].
        simpl in E2. subst. exact (Hx _ Hin2).
Qed.

Lemma upsert_get (k : K) (v : float) (m : list (K * Pandas.mean_acc)) (k' : K) :
  key_sorted m ->
  acc_get k' (Pandas.upsert k v m)
  = if keqb k k' then Pandas.mean_step (acc_get k' m) v else acc_get k' m.
Proof.
  induction 1 as [|[k0 a] m Hs IH Hx]; simpl.
  - destruct (keqb k k'); reflexivity.
  - destruct (kcmp k k0) eqn:E; simpl.
    + apply kcmp_eq in E. subst k0.
      destruct (keqb k k'); reflexivity.
    + destruct (keqb_spec k k') as [<-|Hne]; [|reflexivity].
      destruct (keqb_spec k0 k) as [->|_].
      * rewrite kcmp_refl in E. discriminate.
      * rewrite acc_get_below; [reflexivity|].
        eapply Forall_impl; [|exact Hx]. simpl. intros z Hz.
        eapply kcmp_trans; eauto.
    + destruct (keqb_spec k0 k') as [<-|Hne].
      * destruct (keqb_spec k k0) as [->|_]; [|reflexivity].
        rewrite kcmp_refl in E. discriminate.
      * exact IH.
Qed.

Lemma fold_upsert_sorted (rows : list (K * float)) (m : list (K * Pandas.mean_acc)) :
  key_sorted m -> key_sorted (fold_left upsert_row rows m).
Proof.
  revert m. induction rows as [|kv rows IH]; simpl; intros m Hm; [exact Hm|].
  apply IH. now apply upsert_sorted.
Qed.

Lemma fold_upsert_keys (rows : list (K * float)) (m : list (K * Pandas.mean_acc)) (k : K) :
  In k (map fst (fold_left upsert_row rows m))
  <-> In k (map fst m) \/ In k (map fst rows).
Proof.
  revert m. induction rows as [|kv rows IH]; simpl; intros m; [intuition|].
  rewrite IH. unfold upsert_row. rewrite upsert_keys. intuition.
Qed.

Lemma fold_upsert_get (rows : list (K * float)) (m : list (K * Pandas.mean_acc)) (k : K) :
  key_sorted m ->
  acc_get k (fold_left upsert_row rows m)
  = fold_left Pandas.mean_step (group_values k rows) (acc_get k m).
Proof.
  revert m. induction rows as [|[k0 v] rows IH]; simpl; intros m Hm;
    [reflexivity|].
  rewrite IH by now apply upsert_sorted.
  unfold upsert_row at 1. simpl. rewrite upsert_get by exact Hm.
  unfold group_values. simpl.
  destruct (keqb k0 k); reflexivity.
Qed.

Lemma group_accs_sorted (rows : list (K * float)) :
  key_sorted (Pandas.group_accs rows).
Proof. apply fold_upsert_sorted. constructor. Qed.

(** The groups come out in strictly ascending key order. *)
Lemma groupby_mean_sorted (rows : list (K * float)) :
  key_sorted (Pandas.groupby_mean rows).
Proof.
  unfold Pandas.groupby_mean.
  generalize (group_accs_sorted rows).
  induction 1 as [|x m Hs IH Hx]; simpl; constructor; auto.
  rewrite Forall_map. exact Hx.
Qed.

(** There is one group per key that occurs in the rows. *)
Lemma groupby_mean_keys (rows : list (K * float)) (k : K) :
  In k (Pandas.index (Pandas.groupby_mean rows)) <-> In k (map fst rows).
Proof.
  unfold Pandas.index, Pandas.groupby_mean. rewrite map_map. simpl.
  change (fun x : K * Pandas.mean_acc => fst x) with (@fst K Pandas.mean_acc).
  unfold Pandas.group_accs.
  change (fun m kv => Pandas.upsert (fst kv) (snd kv) m) with upsert_row.
  rewrite fold_upsert_keys. simpl. intuition.
Qed.

(** The value of a group is the mean of the values of all rows that carry
    its key, taken in row order. *)
Lemma groupby_mean_value (rows : list (K * float)) (k : K) (v : float) :
  In (k, v) (Pandas.groupby_mean rows) ->
  v = Pandas.mean (group_values k rows).
Proof.
  unfold Pandas.groupby_mean. intros Hin.
  apply in_map_iff in Hin. destruct Hin as [[k' a] [E Hin]].
  simpl in E. inversion E; subst. clear E.
  unfold Pandas.mean. f_equal.
  rewrite <- (acc_get_In k a _ (group_accs_sorted rows) Hin).
  unfold Pandas.group_accs.
  change (fun m kv => Pandas.upsert (fst kv) (snd kv) m) with upsert_row.
  now rewrite fold_upsert_get by constructor.
Qed.

Lemma groupby_mean_nil (rows : list (K * float)) :
  Pandas.groupby_mean rows = [] <-> rows = [].
Proof.
  split; [|intros ->; reflexivity].
  destruct rows as [|[k v] rows]; [reflexivity|]. intros E.
  assert (Hin : In k (Pandas.index (Pandas.groupby_mean ((k, v) :: rows))))
    by (apply groupby_mean_keys; simpl; auto).
  rewrite E in Hin. destruct Hin.
Qed.

(** Sorting the groups by key again changes nothing. *)
Lemma sort_index_groupby_mean (rows : list (K * float)) :
  Pandas.sort_index (Pandas.groupby_mean rows) = Pandas.groupby_mean rows.
Proof.
  unfold Pandas.sort_index. apply insertion_sort_id.
  generalize (groupby_mean_sorted rows).
  induction 1 as [|x m Hs IH Hx]; constructor; auto.
  eapply Forall_impl; [|exact Hx]. intros y Hy. now apply kltb_asym.
Qed.
End GroupByFacts.

(** ** Facts of [sort_values], [unique] and [max] *)

Section SeriesFacts.
Context {K : Type} `{OrdKey K} `{!OrdKeyLaws K}.

Lemma filter_partition_perm {A} (f : A -> bool) (l : list A) :
  Permutation (filter (fun x => negb (f x)) l ++ filter f l) l.
Proof.
  induction l as [|x l IH]; simpl; [reflexivity|].
  destruct (f x); simpl.
  - rewrite <- Permutation_middle. now constructor.
  - now constructor.
Qed.

Lemma sort_values_perm (s : Pandas.Series K) :
  Permutation (Pandas.sort_values s) s.
Proof.
  unfold Pandas.sort_values. rewrite insertion_sort_perm.
  apply (filter_partition_perm (fun kv => F64.is_nan (snd kv))).
Qed.

Lemma sort_values_nil (s : Pandas.Series K) :
  Pandas.sort_values s = [] <-> s = [].
Proof.
  split; [|intros ->; reflexivity]. intros E.
  apply Permutation_nil. rewrite <- E. apply sort_values_perm.
Qed.

Lemma sort_values_index_NoDup (s : Pandas.Series K) :
  NoDup (Pandas.index s) -> NoDup (Pandas.index (Pandas.sort_values s)).
Proof.
  unfold Pandas.index. intros Hs.
  eapply Permutation_NoDup; [|exact Hs].
  apply Permutation_map. symmetry. apply sort_values_perm.
Qed.

(** The non-NaN part of a sorted series ascends. *)
Lemma sort_values_sorted (s : Pandas.Series K) :
  StronglySorted (fun a b => F64.leb (snd a) (snd b) = true)
    (Pandas.insertion_sort (fun a b => F64.ltb (snd a) (snd b))
       (filter (fun kv => negb (F64.is_nan (snd kv))) s)).
Proof.
  apply insertion_sort_sorted
    with (dom := fun kv : K * float => F64.is_nan (snd kv) = false).
  - intros x y z. apply F64Facts.leb_trans.
  - intros x y. apply F64Facts.ltb_leb.
  - intros x y Hx Hy. now apply F64Facts.not_ltb_leb.
  - apply Forall_forall. intros x Hx. apply filter_In in Hx.
    destruct Hx as [_ Hx]. now apply negb_true_iff in Hx.
Qed.

(** Rank 0 of a sorted series holds a smallest value: it is below every
    value that is not NaN, and it is NaN only if every value is. *)
Lemma sort_values_head_min (s : Pandas.Series K) k v rest :
  Pandas.sort_values s = (k, v) :: rest ->
  forall k' v', In (k', v') s -> F64.is_nan v' = false ->
                F64.is_nan v = false /\ F64.leb v v' = true.
Proof.
  unfold Pandas.sort_values. intros E k' v' Hin Hv'.
  pose proof (sort_values_sorted s) as Hs.
  set (ok := filter (fun kv => negb (F64.is_nan (snd kv))) s) in *.
  pose proof (insertion_sort_perm
                (fun a b : K * float => F64.ltb (snd a) (snd b)) ok) as Hp.
  set (srt := Pandas.insertion_sort _ ok) in *. clearbody srt.
  assert (Hok : In (k', v') srt).
  { apply (Permutation_in _ (Permutation_sym Hp)).
    apply filter_In. split; [exact Hin|]. simpl. now rewrite Hv'. }
  destruct srt as [|x srt']; [destruct Hok|].
  simpl in E. inversion E; subst x. clear E.
  assert (Hv : F64.is_nan v = false).
  { assert (Hx : In (k, v) ok)
      by (apply (Permutation_in _ Hp); left; reflexivity).
    apply filter_In in Hx. destruct Hx as [_ Hx].
    now apply negb_true_iff in Hx. }
  split; [exact Hv|].
  inversion Hs as [|? ? _ Hall]; subst.
  destruct Hok as [E|Hin'].
  - inversion E; subst. now apply F64Facts.leb_refl.
  - rewrite Forall_forall in Hall. exact (Hall _ Hin').
Qed.

Lemma series_get_In (s : Pandas.Series K) k v :
  NoDup (Pandas.index s) -> In (k, v) s -> Pandas.series_get s k = Some v.
Proof.
  unfold Pandas.index.
  induction s as [|[k0 v0] s IH]; simpl; [easy|].
  intros Hnd [E|Hin]; inversion Hnd as [|? ? Hnot Hnd']; subst.
  - inversion E; subst. now rewrite keqb_refl.
  - destruct (keqb_spec k0 k) as [->|_]; [|auto].
    exfalso. apply Hnot. apply in_map_iff. now exists (k, v).
Qed.

Lemma existsb_keqb (x : K) (seen : list K) :
  existsb (keqb x) seen = true <-> In x seen.
Proof.
  rewrite existsb_exists. split.
  - intros [y [Hy E]]. destruct (keqb_spec x y); congruence.
  - intros Hx. exists x. split; [exact Hx|apply keqb_refl].
Qed.

Lemma unique_fold_In (col seen : list K) (x : K) :
  In x (fold_left unique_step col seen) <-> In x seen \/ In x col.
Proof.
  revert seen. induction col as [|y col IH]; simpl; intros seen; [intuition|].
  rewrite IH. unfold unique_step.
  destruct (existsb (keqb y) seen) eqn:E.
  - apply existsb_keqb in E. intuition (subst; auto).
  - rewrite in_app_iff. simpl. intuition.
Qed.

Lemma unique_fold_NoDup (col seen : list K) :
  NoDup seen -> NoDup (fold_left unique_step col seen).
Proof.
  revert seen. induction col as [|y col IH]; simpl; intros seen Hs; [exact Hs|].
  apply IH. unfold unique_step.
  destruct (existsb (keqb y) seen) eqn:E; [exact Hs|].
  apply NoDup_app; [exact Hs|repeat constructor; simpl; tauto|].
  intros z Hz [<-|[]]. apply existsb_keqb in Hz. congruence.
Qed.

Lemma unique_In (col : list K) (x : K) : In x (Pandas.unique col) <-> In x col.
Proof.
  unfold Pandas.unique. change (fun seen x0 => _) with unique_step.
  rewrite unique_fold_In. simpl. intuition.
Qed.

Lemma unique_NoDup (col : list K) : NoDup (Pandas.unique col).
Proof.
  unfold Pandas.unique. change (fun seen x0 => _) with unique_step.
  apply unique_fold_NoDup. constructor.
Qed.
End SeriesFacts.

Lemma NoDup_two_distinct {A} (l : list A) (a b : A) :
  NoDup l -> In a l -> In b l -> a <> b -> (2 <= length l)%nat.
Proof.
  intros Hnd Ha Hb Hab.
  destruct l as [|x [|y l]]; simpl in *; [destruct Ha| |lia].
  destruct Ha as [<-|[]], Hb as [<-|[]]. congruence.
Qed.

Lemma NoDup_all_equal {A} (l : list A) :
  NoDup l -> (forall a b, In a l -> In b l -> a = b) -> (length l < 2)%nat.
Proof.
  intros Hnd Hall.
  destruct l as [|x [|y l]]; simpl; try lia.
  exfalso. inversion Hnd as [|? ? Hnot _]; subst. apply Hnot.
  rewrite (Hall x y); simpl; auto.
Qed.

Lemma fold_max_bounds (l : list Z) (x0 : Z) :
  let m := fold_left Z.max l x0 in
  (m = x0 \/ In m l) /\ x0 <= m /\ forall x, In x l -> x <= m.
Proof.
  revert x0. induction l as [|y l IH]; simpl; intros x0.
  - split; [auto|]. split; [lia|easy].
  - destruct (IH (Z.max x0 y)) as [Hin [Hle Hall]].
    split; [|split].
    + destruct Hin as [E|Hin]; [|auto].
      rewrite E. destruct (Z.max_spec x0 y) as [[_ ->]|[_ ->]]; auto.
    + lia.
    + intros x [<-|Hx]; [lia|auto].
Qed.

(** The maximum of a column is one of its entries and bounds them all. *)
Lemma series_max_spec (col : list Z) (m : Z) :
  Pandas.series_max col = Some m <-> In m col /\ forall x, In x col -> x <= m.
Proof.
  destruct col as [|x0 l]; simpl.
  - split; [discriminate|intros [[] _]].
  - pose proof (fold_max_bounds l x0) as [Hin [Hle Hall]]. split.
    + intros E. inversion E; subst. clear E. split.
      * destruct Hin as [->|Hin]; auto. 
      * intros x [<-|Hx]; auto.
    + intros [Hm Hub]. f_equal.
      assert (fold_left Z.max l x0 <= m).
      { apply Hub. destruct Hin as [->|Hin]; auto. }
      assert (m <= fold_left Z.max l x0).
      { destruct Hm as [<-|Hm]; auto. }
      lia.
Qed.

Lemma series_max_nonempty (col : list Z) :
  col <> [] -> exists m, Pandas.series_max col = Some m.
Proof. destruct col; [congruence|]. intros _. simpl. eauto. Qed.

(** ** Facts of the effect layer *)

Lemma for_each_emit {A} (f : A -> event) (xs : list A) :
  for_each xs (fun x => emit (f x)) = (map f xs, inr tt).
Proof.
  induction xs as [|x xs IH]; simpl; [reflexivity|].
  rewrite IH. reflexivity.
Qed.

Lemma iloc_head {K} (s : Pandas.Series K) k v rest :
  s = (k, v) :: rest -> iloc s 0 = ret v.
Proof. intros ->. reflexivity. Qed.

Lemma table_loop (summary part : Pandas.Series string) (baseline : float) :
  (forall k v, In (k, v) part -> Pandas.series_get summary k = Some v) ->
  for_each (Pandas.index part)
    (fun algo =>
       mb_s <- getitem summary algo ;;
       let speedup_val := F64.div mb_s baseline in
       emit (Print (MsgTableRow algo mb_s speedup_val)))
  = (table_rows part baseline, inr tt).
Proof.
  cbv zeta.
  induction part as [|[k v] part IH]; intros Hget; [reflexivity|].
  cbn [Pandas.index map fst for_each].
  unfold getitem at 1. rewrite (Hget k v) by (left; reflexivity).
  fold (Pandas.index part). rewrite IH by (intros; apply Hget; now right).
  reflexivity.
Qed.

Lemma comparison_trace_saves (summary : Pandas.Series string)
  (baseline : float) (output : string) :
  In (SaveFig output) (comparison_trace summary baseline output).
Proof.
  unfold comparison_trace. cbv zeta.
  do 4 (apply in_or_app; right). apply in_or_app. left. now left.
Qed.

Lemma run_summary_index_NoDup (df : DataFrame) :
  NoDup (Pandas.index (run_summary df)).
Proof.
  unfold run_summary. apply sort_values_index_NoDup.
  apply key_sorted_NoDup, groupby_mean_sorted.
Qed.

Lemma plot_throughput_comparison_run (df : DataFrame) (output : string)
  algo baseline rest :
  run_summary df = (algo, baseline) :: rest ->
  plot_throughput_comparison df output
  = (comparison_trace (run_summary df) baseline output, inr tt).
Proof.
  intros E. unfold plot_throughput_comparison, comparison_trace. cbv zeta.
  pose proof (run_summary_index_NoDup df) as Hnd.
  set (s := run_summary df) in *.
  rewrite (iloc_head s _ _ _ E).
  rewrite for_each_emit.
  unfold bind at 1 2 3. unfold emit at 1. unfold ret at 1. cbv iota beta.
  rewrite for_each_emit.
  pose proof (table_loop s s baseline) as Htab. cbv zeta in Htab.
  rewrite Htab by (intros k v Hin; now apply series_get_In).
  unfold bind, emit. simpl. rewrite <- ?app_assoc. simpl.
  rewrite ?app_nil_r. reflexivity.
Qed.

Lemma plot_throughput_comparison_empty (df : DataFrame) (output : string) :
  run_summary df = [] ->
  plot_throughput_comparison df output
  = ([BarH AbsoluteThroughput [] []], inl IndexError).
Proof.
  intros E. unfold plot_throughput_comparison. rewrite E. reflexivity.
Qed.

(** The table enters the function only through its latest run. *)
Lemma plot_throughput_comparison_summary (df df' : DataFrame) (output : string) :
  run_summary df = run_summary df' ->
  plot_throughput_comparison df output = plot_throughput_comparison df' output.
Proof. unfold plot_throughput_comparison. now intros ->. Qed.

(** ** Facts of the latest run *)

Lemma filter_idem {A} (f : A -> bool) (l : list A) :
  filter f (filter f l) = filter f l.
Proof.
  induction l as [|x l IH]; simpl; [reflexivity|].
  destruct (f x) eqn:E; simpl; [rewrite E, IH|]; auto.
Qed.

Lemma latest_run_max (df : DataFrame) (m : Z) :
  Pandas.series_max (map timestamp df) = Some m ->
  latest_run df = filter (fun r => timestamp r =? m) df.
Proof. unfold latest_run. now intros ->. Qed.

Lemma latest_run_nonempty (df : DataFrame) : df <> [] -> latest_run df <> [].
Proof.
  intros Hne.
  destruct (series_max_nonempty (map timestamp df)) as [m Hm].
  { destruct df; [congruence|discriminate]. }
  rewrite (latest_run_max df m Hm).
  apply series_max_spec in Hm. destruct Hm as [Hin _].
  apply in_map_iff in Hin. destruct Hin as [r [Hr Hin]].
  intros E.
  assert (Hf : In r (filter (fun r => timestamp r =? m) df))
    by (apply filter_In; split; [exact Hin|now apply Z.eqb_eq]).
  rewrite E in Hf. destruct Hf.
Qed.

Lemma latest_run_of_latest_run (df : DataFrame) :
  latest_run (latest_run df) = latest_run df.
Proof.
  destruct df as [|r0 df0]; [reflexivity|].
  set (df := r0 :: df0).
  destruct (series_max_nonempty (map timestamp df)) as [m Hm]; [discriminate|].
  rewrite (latest_run_max df m Hm).
  rewrite (latest_run_max (filter (fun r => timestamp r =? m) df) m).
  - apply filter_idem.
  - apply series_max_spec. apply series_max_spec in Hm.
    destruct Hm as [Hin _]. split.
    + apply in_map_iff in Hin. destruct Hin as [r [Hr Hin]].
      apply in_map_iff. exists r. split; [exact Hr|].
      apply filter_In. split; [exact Hin|now apply Z.eqb_eq].
    + intros x Hx. apply in_map_iff in Hx. destruct Hx as [r [<- Hr]].
      apply filter_In in Hr. destruct Hr as [_ Hr].
      apply Z.eqb_eq in Hr. lia.
Qed.

(** A row whose timestamp is not the maximum can be dropped. *)
Lemma latest_run_drop (pre post : DataFrame) (r : BenchmarkRecord) :
  Pandas.series_max (map timestamp (pre ++ r :: post)) <> Some (timestamp r) ->
  latest_run (pre ++ r :: post) = latest_run (pre ++ post).
Proof.
  intros Hr.
  destruct (series_max_nonempty (map timestamp (pre ++ r :: post))) as [m Hm].
  { destruct pre; discriminate. }
  assert (Hne : timestamp r <> m) by congruence.
  assert (Hm' : Pandas.series_max (map timestamp (pre ++ post)) = Some m).
  { apply series_max_spec. apply series_max_spec in Hm.
    destruct Hm as [Hin Hub]. split.
    - rewrite map_app, in_app_iff in *. simpl in Hin. intuition congruence.
    - intros x Hx. apply Hub. rewrite map_app, in_app_iff in *. simpl.
      intuition. }
  rewrite (latest_run_max _ m Hm), (latest_run_max _ m Hm').
  rewrite !filter_app. simpl.
  destruct (Z.eqb_spec (timestamp r) m); [congruence|reflexivity].
Qed.

Lemma group_values_rows {R K} `{OrdKey K} (key : R -> K) (val : R -> float)
  (k : K) (l : list R) :
  group_values k (map (fun r => (key r, val r)) l)
  = map val (filter (fun r => keqb (key r) k) l).
Proof.
  unfold group_values. induction l as [|r l IH]; simpl; [reflexivity|].
  destruct (keqb (key r) k); simpl; now rewrite IH.
Qed.

Lemma run_summary_perm (df : DataFrame) :
  Permutation (run_summary df) (latest_means df).
Proof. apply sort_values_perm. Qed.

Lemma latest_means_value (df : DataFrame) (algo : string) (m : float) :
  In (algo, m) (latest_means df) ->
  In algo (map algorithm (latest_run df))
  /\ m = Pandas.mean (map mb_s (filter (fun r => String.eqb (algorithm r) algo)
                                       (latest_run df))).
Proof.
  intros Hin. split.
  - assert (Hk : In algo (Pandas.index (latest_means df)))
      by (apply in_map_iff; now exists (algo, m)).
    unfold latest_means in Hk.
    apply (proj1 (groupby_mean_keys _ _)) in Hk.
    rewrite map_map in Hk. exact Hk.
  - apply groupby_mean_value in Hin. rewrite group_values_rows in Hin.
    rewrite Hin. do 2 f_equal. apply filter_ext. intros r. apply keqb_string.
Qed.

Lemma run_summary_nonempty (df : DataFrame) :
  latest_run df <> [] -> run_summary df <> [].
Proof.
  intros Hne E. unfold run_summary in E.
  apply (proj1 (sort_values_nil _)) in E.
  apply (proj1 (groupby_mean_nil _)) in E.
  destruct (latest_run df); [congruence|discriminate E].
Qed.

(* ===================================================================== *)
(** * Throughput comparison *)
(* ===================================================================== *)

(** C1, as stated, fails: with a single algorithm measured at 0 MB/s the
    latest run has one algorithm, the baseline is 0, and the speedup drawn
    for the baseline is NaN (0/0), not 1.0. *)
Lemma baseline_speedup_is_nan_at_zero :
  latest_run df_zero_only <> []
  /\ run_summary df_zero_only = [("SHA-256"%string, F64.zero)]
  /\ Pandas.series_div (run_summary df_zero_only) F64.zero
     = [("SHA-256"%string, F64.nan)]
  /\ In (BarH RelativePerformance ["SHA-256"%string] [F64.nan])
        (trace (plot_throughput_comparison df_zero_only "bench_plot.png"))
  /\ F64.nan <> F64.one
  /\ F64.eqb F64.nan F64.one = false.
Proof.
  repeat split; try (vm_compute; (reflexivity || discriminate)).
  vm_compute. tauto.
Qed.

(** C1 (amended): when the latest run has at least one algorithm, the
    baseline is the rank-0 entry of the sorted summary; it is the mean of
    one of the latest-run algorithms and lies below every per-algorithm
    mean of the latest run (NaN means aside), whatever the algorithms are
    called; and when that mean is finite and non-zero the speedup of the
    baseline entry is exactly 1.0. *)
Theorem baseline_is_slowest_of_latest_run (df : DataFrame) (output : string) :
  latest_run df <> [] ->
  exists algo baseline rest,
    run_summary df = (algo, baseline) :: rest
    /\ In algo (map algorithm (latest_run df))
    /\ baseline
       = Pandas.mean (map mb_s (filter (fun r => String.eqb (algorithm r) algo)
                                       (latest_run df)))
    /\ (forall a m, In (a, m) (latest_means df) -> F64.is_nan m = false ->
                    F64.is_nan baseline = false /\ F64.leb baseline m = true)
    /\ (F64.is_finite_nonzero baseline = true ->
        Pandas.series_div (run_summary df) baseline
        = (algo, F64.one) :: Pandas.series_div rest baseline)
    /\ plot_throughput_comparison df output
       = (comparison_trace (run_summary df) baseline output, inr tt).
Proof.
  intros Hne.
  destruct (run_summary df) as [|[algo baseline] rest] eqn:E.
  { now apply run_summary_nonempty in Hne. }
  exists algo, baseline, rest.
  assert (Hin : In (algo, baseline) (latest_means df)).
  { apply (Permutation_in _ (run_summary_perm df)). rewrite E. now left. }
  destruct (latest_means_value df algo baseline Hin) as [Hk Hv].
  repeat split; auto.
  - eapply sort_values_head_min with (s := latest_means df); eauto.
  - eapply sort_values_head_min with (s := latest_means df); eauto.
  - intros Hb. simpl. now rewrite F64Facts.div_self.
  - rewrite <- E. eapply plot_throughput_comparison_run; eauto.
Qed.

Lemma baseline_is_slowest_of_latest_run_witness :
  latest_run df_scenario <> []
  /\ exists algo baseline rest,
      run_summary df_scenario = (algo, baseline) :: rest
      /\ In algo (map algorithm (latest_run df_scenario))
      /\ baseline
         = Pandas.mean (map mb_s (filter (fun r => String.eqb (algorithm r) algo)
                                         (latest_run df_scenario)))
      /\ (forall a m, In (a, m) (latest_means df_scenario) ->
                      F64.is_nan m = false ->
                      F64.is_nan baseline = false /\ F64.leb baseline m = true)
      /\ (F64.is_finite_nonzero baseline = true ->
          Pandas.series_div (run_summary df_scenario) baseline
          = (algo, F64.one) :: Pandas.series_div rest baseline)
      /\ plot_throughput_comparison df_scenario "bench_plot.png"
         = (comparison_trace (run_summary df_scenario) baseline "bench_plot.png",
            inr tt).
Proof.
  assert (H : latest_run df_scenario <> []) by (vm_compute; discriminate).
  split; [exact H|].
  exact (baseline_is_slowest_of_latest_run df_scenario "bench_plot.png" H).
Defined.

(** The scenario of the three algorithms: summary, baseline and speedups. *)
Example scenario_summary :
  run_summary df_scenario
  = [("SHA-256"%string, f64 50); ("BlitzHash"%string, f64 200);
     ("BlitzHash-MT"%string, f64 600)]
  /\ Pandas.series_div (run_summary df_scenario) (f64 50)
     = [("SHA-256"%string, f64 1); ("BlitzHash"%string, f64 4);
        ("BlitzHash-MT"%string, f64 12)].
Proof. split; vm_compute; reflexivity. Qed.

(** The baseline is positional: the same measurements under other names
    make another algorithm the baseline. *)
Example baseline_is_positional :
  run_summary [ row 100 "SHA-256" 1 (f64 200); row 100 "BlitzHash" 1 (f64 50) ]
  = [("BlitzHash"%string, f64 50); ("SHA-256"%string, f64 200)].
Proof. vm_compute. reflexivity. Qed.

(** C2, as stated, fails: with a baseline mean of 0 the run ends normally,
    no exception reaches the caller, and the speedups drawn are NaN and
    +infinity. *)
Lemma zero_baseline_raises_nothing :
  run_summary df_zero_baseline
  = [("SHA-256"%string, F64.zero); ("BlitzHash"%string, f64 200)]
  /\ outcome (plot_throughput_comparison df_zero_baseline "bench_plot.png")
     = inr tt
  /\ In (BarH RelativePerformance ["SHA-256"%string; "BlitzHash"%string]
              [F64.nan; F64.inf])
        (trace (plot_throughput_comparison df_zero_baseline "bench_plot.png"))
  /\ In (SaveFig "bench_plot.png")
        (trace (plot_throughput_comparison df_zero_baseline "bench_plot.png")).
Proof.
  repeat split; try (vm_compute; reflexivity); vm_compute; tauto.
Qed.

(** C2 (amended): when the baseline mean is exactly 0 (either zero), no
    error is signalled: the run completes and writes the chart, the speedup
    of the baseline entry is NaN, every speedup is NaN or infinite, an
    algorithm with a finite non-zero mean gets an infinite speedup, and an
    algorithm with a zero or NaN mean gets NaN; the speedup drawn for an
    entry is its mean divided by the baseline. *)
Theorem zero_baseline_gives_nan_and_infinities
  (df : DataFrame) (output : string) algo baseline rest :
  run_summary df = (algo, baseline) :: rest ->
  F64.is_zero baseline = true ->
  plot_throughput_comparison df output
  = (comparison_trace (run_summary df) baseline output, inr tt)
  /\ In (SaveFig output) (trace (plot_throughput_comparison df output))
  /\ Pandas.series_div (run_summary df) baseline
     = (algo, F64.nan) :: Pandas.series_div rest baseline
  /\ (forall a s, In (a, s) (Pandas.series_div (run_summary df) baseline) ->
                  F64.is_nan s || F64.is_inf s = true)
  /\ (forall a m, In (a, m) (run_summary df) ->
                  F64.is_finite_nonzero m = true ->
                  F64.is_inf (F64.div m baseline) = true)
  /\ (forall a m, In (a, m) (run_summary df) ->
                  F64.is_zero m || F64.is_nan m = true ->
                  F64.div m baseline = F64.nan)
  /\ (forall a m, In (a, m) (run_summary df) ->
                  In (a, F64.div m baseline)
                     (Pandas.series_div (run_summary df) baseline)).
Proof.
  intros E Hz.
  pose proof (plot_throughput_comparison_run df output _ _ _ E) as Hrun.
  split; [exact Hrun|]. split; [|split; [|split; [|split; [|split]]]].
  - rewrite Hrun. apply comparison_trace_saves.
  - rewrite E. simpl. now rewrite F64Facts.div_zero_zero.
  - intros a s Hin. unfold Pandas.series_div in Hin.
    apply in_map_iff in Hin. destruct Hin as [[a' m] [Heq _]].
    simpl in Heq. inversion Heq; subst.
    now apply F64Facts.div_by_zero.
  - intros a m _ Hm. now apply F64Facts.div_finite_zero.
  - intros a m _ Hm.
    destruct (F64Facts.div_by_zero m baseline Hz) as [Hdiv _].
    rewrite Hdiv, Hm. reflexivity.
  - intros a m Hin. unfold Pandas.series_div.
    apply in_map_iff. now exists (a, m).
Qed.

Lemma zero_baseline_gives_nan_and_infinities_witness :
  run_summary df_zero_baseline
  = [("SHA-256"%string, F64.zero); ("BlitzHash"%string, f64 200)]
  /\ F64.is_zero F64.zero = true
  /\ Pandas.series_div (run_summary df_zero_baseline) F64.zero
     = ("SHA-256"%string, F64.nan)
       :: Pandas.series_div [("BlitzHash"%string, f64 200)] F64.zero.
Proof.
  assert (E : run_summary df_zero_baseline
              = [("SHA-256"%string, F64.zero); ("BlitzHash"%string, f64 200)])
    by (vm_compute; reflexivity).
  assert (Hz : F64.is_zero F64.zero = true) by reflexivity.
  split; [exact E|]. split; [exact Hz|].
  exact (proj1 (proj2 (proj2
    (zero_baseline_gives_nan_and_infinities
       df_zero_baseline "bench_plot.png" _ _ _ E Hz)))).
Defined.

(** C3: when the source exists and holds zero records, loading succeeds
    (and reports 0 results), and the throughput summary of the loaded table
    ends in an error, the [IndexError] of [summary.iloc[0]], before any
    image is written. *)
Theorem empty_dataset_is_an_error
  (fs : FileSystem) (csv_path output : string) :
  fs csv_path = Some [] ->
  load_results fs csv_path = ([Print (MsgLoaded 0)], inr [])
  /\ run_summary [] = []
  /\ plot_throughput_comparison [] output
     = ([BarH AbsoluteThroughput [] []], inl IndexError)
  /\ no_image_written (plot_throughput_comparison [] output).
Proof.
  intros Hfs. unfold load_results. rewrite Hfs.
  repeat split. intros out [Hin|[]]. discriminate Hin.
Qed.

Lemma empty_dataset_is_an_error_witness :
  fs_empty_table "bench_results.csv"%string = Some []
  /\ load_results fs_empty_table "bench_results.csv"
     = ([Print (MsgLoaded 0)], inr [])
  /\ run_summary [] = []
  /\ plot_throughput_comparison [] "bench_plot.png"
     = ([BarH AbsoluteThroughput [] []], inl IndexError)
  /\ no_image_written (plot_throughput_comparison [] "bench_plot.png").
Proof.
  split; [reflexivity|].
  apply (empty_dataset_is_an_error fs_empty_table). reflexivity.
Defined.

(** The whole script on an empty table: the error ends the run and none of
    the three charts is produced. *)
Example main_on_empty_table (dates : DateSupport) :
  main dates fs_empty_table
  = ([Print MsgBanner; Print (MsgLoaded 0); BarH AbsoluteThroughput [] []],
     inl IndexError).
Proof. reflexivity. Qed.

(** C4: rows whose timestamp is not the maximum of the table do not
    influence the summary: summary, speedups and everything the function
    does are those of the latest run alone, and dropping (or adding) a row
    with a non-maximal timestamp, wherever it stands, changes none of it. *)
Theorem latest_run_isolation (df : DataFrame) (output : string) :
  (run_summary df = run_summary (latest_run df)
   /\ plot_throughput_comparison df output
      = plot_throughput_comparison (latest_run df) output)
  /\ forall pre post r,
       df = pre ++ r :: post ->
       Pandas.series_max (map timestamp df) <> Some (timestamp r) ->
       run_summary df = run_summary (pre ++ post)
       /\ plot_throughput_comparison df output
          = plot_throughput_comparison (pre ++ post) output.
Proof.
  assert (H1 : run_summary df = run_summary (latest_run df)).
  { unfold run_summary. now rewrite latest_run_of_latest_run. }
  split.
  - split; [exact H1|]. now apply plot_throughput_comparison_summary.
  - intros pre post r -> Hr.
    assert (H2 : run_summary (pre ++ r :: post) = run_summary (pre ++ post)).
    { unfold run_summary. now rewrite latest_run_drop. }
    split; [exact H2|]. now apply plot_throughput_comparison_summary.
Qed.

Lemma latest_run_isolation_witness :
  df_two_runs = [row 50 "SHA-256" 1 (f64 40)]
                ++ row 100 "SHA-256" 1 (f64 50)
                   :: [row 100 "BlitzHash" 1 (f64 200)]
                ++ [row 50 "BlitzHash" 1 (f64 900)]
  /\ Pandas.series_max (map timestamp df_two_runs)
     <> Some (timestamp (row 50 "BlitzHash" 1 (f64 900)))
  /\ run_summary df_two_runs
     = run_summary ([ row 50 "SHA-256" 1 (f64 40);
                      row 100 "SHA-256" 1 (f64 50);
                      row 100 "BlitzHash" 1 (f64 200) ] ++ []).
Proof.
  assert (Hmax : Pandas.series_max (map timestamp df_two_runs)
                 <> Some (timestamp (row 50 "BlitzHash" 1 (f64 900))))
    by (vm_compute; discriminate).
  split; [reflexivity|]. split; [exact Hmax|].
  exact (proj1 (proj2 (latest_run_isolation df_two_runs "bench_plot.png")
                  [ row 50 "SHA-256" 1 (f64 40);
                    row 100 "SHA-256" 1 (f64 50);
                    row 100 "BlitzHash" 1 (f64 200) ]
                  [] (row 50 "BlitzHash" 1 (f64 900)) eq_refl Hmax)).
Defined.

Example latest_run_of_two_runs :
  run_summary df_two_runs
  = [("SHA-256"%string, f64 50); ("BlitzHash"%string, f64 200)].
Proof. vm_compute. reflexivity. Qed.

(* ===================================================================== *)
(** * Thread scaling *)
(* ===================================================================== *)

Lemma filter_filter_andb {A} (f g : A -> bool) (l : list A) :
  filter f (filter g l) = filter (fun x => g x && f x) l.
Proof.
  induction l as [|x l IH]; simpl; [reflexivity|].
  destruct (g x); simpl; [destruct (f x)|]; now rewrite IH.
Qed.

Lemma scaling_curve_groups (df : DataFrame) :
  scaling_curve df
  = Pandas.groupby_mean (map (fun r => (threads r, mb_s r)) (parallel_rows df)).
Proof. apply sort_index_groupby_mean. Qed.

Lemma scaling_curve_sorted (df : DataFrame) : key_sorted (scaling_curve df).
Proof. rewrite scaling_curve_groups. apply groupby_mean_sorted. Qed.

(** The thread counts of the curve are those of the rows of the parallel
    variant, whatever their timestamp. *)
Lemma scaling_curve_keys (df : DataFrame) (t : Z) :
  In t (Pandas.index (scaling_curve df))
  <-> exists r, In r df /\ algorithm r = parallel_label /\ threads r = t.
Proof.
  rewrite scaling_curve_groups, groupby_mean_keys, map_map. simpl.
  rewrite in_map_iff. unfold parallel_rows. split.
  - intros [r [Ht Hr]]. apply filter_In in Hr. destruct Hr as [Hr Ha].
    exists r. repeat split; auto. now apply String.eqb_eq.
  - intros [r [Hr [Ha Ht]]]. exists r. split; [exact Ht|].
    apply filter_In. split; [exact Hr|]. now apply String.eqb_eq.
Qed.

Lemma scaling_curve_value (df : DataFrame) (t : Z) (v : float) :
  In (t, v) (scaling_curve df) -> v = Pandas.mean (map mb_s (rows_at df t)).
Proof.
  rewrite scaling_curve_groups. intros Hin.
  apply groupby_mean_value in Hin. rewrite group_values_rows in Hin.
  rewrite Hin. do 2 f_equal. unfold parallel_rows, rows_at.
  rewrite filter_filter_andb. apply filter_ext. intros r.
  now rewrite keqb_Z.
Qed.

Lemma scaling_curve_head_lowest (df : DataFrame) t0 m0 rest :
  scaling_curve df = (t0, m0) :: rest ->
  forall t, In t (Pandas.index (scaling_curve df)) -> t0 <= t.
Proof.
  intros E t Hin. pose proof (scaling_curve_sorted df) as Hs.
  rewrite E in Hs, Hin. inversion Hs as [|? ? _ Hall]; subst.
  unfold Pandas.index in Hin. simpl in Hin, Hall.
  destruct Hin as [<-|Hin]; [lia|].
  apply in_map_iff in Hin. destruct Hin as [[t' v'] [<- Hin]].
  rewrite Forall_forall in Hall. specialize (Hall _ Hin). simpl in Hall.
  apply -> Z.compare_lt_iff in Hall. simpl. lia.
Qed.

Lemma plot_threading_scaling_run (df : DataFrame) (output : string) t0 m0 rest :
  scaling_curve df = (t0, m0) :: rest ->
  (2 <= length (scaling_curve df))%nat ->
  plot_threading_scaling df output
  = (scaling_trace (scaling_curve df) m0 output, inr tt).
Proof.
  intros E Hlen. unfold plot_threading_scaling. cbv zeta.
  destruct (parallel_rows df) as [|r0 par] eqn:Epar.
  { unfold scaling_curve in E. rewrite Epar in E. discriminate E. }
  cbn [length Nat.eqb].
  fold (scaling_curve df) in *. unfold scaling_curve in E, Hlen |- *.
  rewrite Epar in E, Hlen |- *.
  destruct (Nat.ltb_spec (length (by_threads_of (r0 :: par))) 2) as [Hlt|_];
    [lia|].
  unfold ideal_line. rewrite E. reflexivity.
Qed.

Lemma length_ge_2_cons {A} (l : list A) :
  (2 <= length l)%nat -> exists x y rest, l = x :: y :: rest.
Proof. destruct l as [|x [|y rest]]; simpl; try lia. eauto. Qed.

(** C5: when the parallel variant was measured at two or more distinct
    thread counts, the ideal curve drawn is, at every measured thread count
    [t], the mean throughput at the lowest measured thread count times [t];
    in particular the measurements 1:100, 2:180, 4:300 give the ideal curve
    1:100, 2:200, 4:400. *)
Theorem ideal_curve_extrapolates_lowest_thread_count :
  (forall (df : DataFrame) (output : string) (r1 r2 : BenchmarkRecord),
     In r1 df -> In r2 df ->
     algorithm r1 = parallel_label -> algorithm r2 = parallel_label ->
     threads r1 <> threads r2 ->
     exists t0 m0 rest,
       scaling_curve df = (t0, m0) :: rest
       /\ (forall t, In t (Pandas.index (scaling_curve df)) -> t0 <= t)
       /\ m0 = Pandas.mean (map mb_s (rows_at df t0))
       /\ plot_threading_scaling df output
          = ([ PlotThreads Measured (Pandas.index (scaling_curve df))
                           (Pandas.values (scaling_curve df));
               PlotThreads IdealLinearScaling (Pandas.index (scaling_curve df))
                 (map (fun t => F64.mul m0 (F64.of_Z t))
                      (Pandas.index (scaling_curve df)));
               SaveFig output;
               Print (MsgThreadingSaved output) ], inr tt))
  /\ (scaling_curve df_scaling = [(1, f64 100); (2, f64 180); (4, f64 300)]
      /\ plot_threading_scaling df_scaling "threading_plot.png"
         = ([ PlotThreads Measured [1; 2; 4] [f64 100; f64 180; f64 300];
              PlotThreads IdealLinearScaling [1; 2; 4]
                          [f64 100; f64 200; f64 400];
              SaveFig "threading_plot.png";
              Print (MsgThreadingSaved "threading_plot.png") ], inr tt)).
Proof.
  split; [|split; vm_compute; reflexivity].
  intros df output r1 r2 H1 H2 Ha1 Ha2 Hne.
  assert (Hlen : (2 <= length (scaling_curve df))%nat).
  { rewrite <- (length_map fst).
    apply NoDup_two_distinct with (a := threads r1) (b := threads r2).
    - apply key_sorted_NoDup, scaling_curve_sorted.
    - apply scaling_curve_keys. now exists r1.
    - apply scaling_curve_keys. now exists r2.
    - exact Hne. }
  destruct (length_ge_2_cons _ Hlen) as [[t0 m0] [y [rest E]]].
  exists t0, m0, (y :: rest).
  split; [exact E|]. split; [|split].
  - now apply scaling_curve_head_lowest with (m0 := m0) (rest := y :: rest).
  - apply scaling_curve_value. rewrite E. now left.
  - now apply plot_threading_scaling_run with (t0 := t0) (rest := y :: rest).
Qed.

Lemma ideal_curve_extrapolates_lowest_thread_count_witness :
  In (row 100 "BlitzHash-MT" 1 (f64 100)) df_scaling
  /\ In (row 100 "BlitzHash-MT" 4 (f64 300)) df_scaling
  /\ algorithm (row 100 "BlitzHash-MT" 1 (f64 100)) = parallel_label
  /\ algorithm (row 100 "BlitzHash-MT" 4 (f64 300)) = parallel_label
  /\ threads (row 100 "BlitzHash-MT" 1 (f64 100))
     <> threads (row 100 "BlitzHash-MT" 4 (f64 300))
  /\ exists t0 m0 rest,
       scaling_curve df_scaling = (t0, m0) :: rest
       /\ (forall t, In t (Pandas.index (scaling_curve df_scaling)) -> t0 <= t)
       /\ m0 = Pandas.mean (map mb_s (rows_at df_scaling t0))
       /\ plot_threading_scaling df_scaling "threading_plot.png"
          = ([ PlotThreads Measured (Pandas.index (scaling_curve df_scaling))
                           (Pandas.values (scaling_curve df_scaling));
               PlotThreads IdealLinearScaling
                 (Pandas.index (scaling_curve df_scaling))
                 (map (fun t => F64.mul m0 (F64.of_Z t))
                      (Pandas.index (scaling_curve df_scaling)));
               SaveFig "threading_plot.png";
               Print (MsgThreadingSaved "threading_plot.png") ], inr tt).
Proof.
  assert (H1 : In (row 100 "BlitzHash-MT" 1 (f64 100)) df_scaling)
    by (left; reflexivity).
  assert (H2 : In (row 100 "BlitzHash-MT" 4 (f64 300)) df_scaling)
    by (right; right; left; reflexivity).
  assert (Hne : threads (row 100 "BlitzHash-MT" 1 (f64 100))
                <> threads (row 100 "BlitzHash-MT" 4 (f64 300)))
    by (simpl; lia).
  repeat (split; [first [exact H1|exact H2|reflexivity|exact Hne]|]).
  exact (proj1 ideal_curve_extrapolates_lowest_thread_count
           df_scaling "threading_plot.png"%string _ _ H1 H2 eq_refl eq_refl Hne).
Defined.

(** C6: a table without any row of the parallel variant makes the scaling
    analysis print its notice and return, without an exception and without
    writing an image. *)
Theorem scaling_skipped_without_parallel_rows (df : DataFrame) (output : string) :
  (forall r, In r df -> algorithm r <> parallel_label) ->
  plot_threading_scaling df output = ([Print MsgNoParallel], inr tt)
  /\ returns_normally (plot_threading_scaling df output)
  /\ no_image_written (plot_threading_scaling df output).
Proof.
  intros Hnone.
  assert (Hpar : parallel_rows df = []).
  { unfold parallel_rows. induction df as [|r df IH]; simpl; [reflexivity|].
    destruct (String.eqb_spec (algorithm r) parallel_label) as [Ha|_].
    - exfalso. apply (Hnone r); simpl; auto.
    - apply IH. intros r' Hr'. apply Hnone. now right. }
  assert (Hrun : plot_threading_scaling df output = ([Print MsgNoParallel], inr tt)).
  { unfold plot_threading_scaling. cbv zeta. now rewrite Hpar. }
  rewrite Hrun. split; [reflexivity|]. split.
  - now exists tt.
  - intros out [Hin|[]]. discriminate Hin.
Qed.

Lemma scaling_skipped_without_parallel_rows_witness :
  (forall r, In r df_two_runs -> algorithm r <> parallel_label)
  /\ plot_threading_scaling df_two_runs "threading_plot.png"
     = ([Print MsgNoParallel], inr tt)
  /\ returns_normally (plot_threading_scaling df_two_runs "threading_plot.png")
  /\ no_image_written (plot_threading_scaling df_two_runs "threading_plot.png").
Proof.
  assert (H : forall r, In r df_two_runs -> algorithm r <> parallel_label).
  { intros r [<-|[<-|[<-|[<-|[]]]]]; simpl; discriminate. }
  split; [exact H|].
  exact (scaling_skipped_without_parallel_rows df_two_runs "threading_plot.png" H).
Defined.

Lemma filter_map_comm {A B} (f : B -> bool) (g : A -> B) (l : list A) :
  filter f (map g l) = map g (filter (fun x => f (g x)) l).
Proof.
  induction l as [|x l IH]; simpl; [reflexivity|].
  destruct (f (g x)); simpl; now rewrite IH.
Qed.

Lemma scaling_curve_retimed (df : DataFrame) (retime : BenchmarkRecord -> Z) :
  scaling_curve (map (fun r => with_timestamp (retime r) r) df)
  = scaling_curve df.
Proof.
  unfold scaling_curve, by_threads_of, parallel_rows.
  rewrite filter_map_comm, map_map. reflexivity.
Qed.

(** C7: the scaling curve is computed from all rows of the parallel variant
    in the whole table: every such row, whatever its timestamp, belongs to
    the group whose mean is the point at its thread count; the curve does
    not change when rows are moved to other runs; and an older run does
    change the mean that the latest run alone would give. *)
Theorem scaling_curve_spans_all_runs :
  (forall (df : DataFrame) (r : BenchmarkRecord),
     In r df -> algorithm r = parallel_label ->
     exists v,
       In (threads r, v) (scaling_curve df)
       /\ In r (rows_at df (threads r))
       /\ v = Pandas.mean (map mb_s (rows_at df (threads r))))
  /\ (forall (df : DataFrame) (retime : BenchmarkRecord -> Z),
        scaling_curve (map (fun r => with_timestamp (retime r) r) df)
        = scaling_curve df)
  /\ (scaling_curve df_parallel_two_runs = [(1, f64 200)]
      /\ scaling_curve (latest_run df_parallel_two_runs) = [(1, f64 300)]).
Proof.
  split; [|split; [exact scaling_curve_retimed|split; vm_compute; reflexivity]].
  intros df r Hr Ha.
  assert (Hk : In (threads r) (Pandas.index (scaling_curve df)))
    by (apply scaling_curve_keys; now exists r).
  apply in_map_iff in Hk. destruct Hk as [[t v] [Ht Hin]].
  simpl in Ht. subst t. exists v.
  split; [exact Hin|]. split.
  - unfold rows_at. apply filter_In. split; [exact Hr|].
    apply andb_true_iff. split; [now apply String.eqb_eq|apply Z.eqb_refl].
  - now apply scaling_curve_value.
Qed.

Lemma scaling_curve_spans_all_runs_witness :
  In (row 50 "BlitzHash-MT" 1 (f64 100)) df_parallel_two_runs
  /\ algorithm (row 50 "BlitzHash-MT" 1 (f64 100)) = parallel_label
  /\ exists v,
       In (1, v) (scaling_curve df_parallel_two_runs)
       /\ In (row 50 "BlitzHash-MT" 1 (f64 100)) (rows_at df_parallel_two_runs 1)
       /\ v = Pandas.mean (map mb_s (rows_at df_parallel_two_runs 1)).
Proof.
  assert (H : In (row 50 "BlitzHash-MT" 1 (f64 100)) df_parallel_two_runs)
    by (left; reflexivity).
  split; [exact H|]. split; [reflexivity|].
  exact (proj1 scaling_curve_spans_all_runs
           df_parallel_two_runs (row 50 "BlitzHash-MT" 1 (f64 100)) H eq_refl).
Defined.




(* ===================================================================== *)
(** * History *)
(* ===================================================================== *)

Lemma nunique_lt_2 (col : list Z) :
  (forall a b, In a col -> In b col -> a = b) ->
  (Pandas.nunique col <? 2)%nat = true.
Proof.
  intros Hall. apply Nat.ltb_lt. unfold Pandas.nunique.
  apply NoDup_all_equal; [apply unique_NoDup|].
  intros a b Ha Hb.
  apply (proj1 (unique_In _ _)) in Ha. apply (proj1 (unique_In _ _)) in Hb.
  auto.
Qed.

Lemma nunique_ge_2 (col : list Z) (a b : Z) :
  In a col -> In b col -> a <> b -> (Pandas.nunique col <? 2)%nat = false.
Proof.
  intros Ha Hb Hab. apply Nat.ltb_ge. unfold Pandas.nunique.
  apply NoDup_two_distinct with (a := a) (b := b);
    [apply unique_NoDup|now apply unique_In|now apply unique_In|exact Hab].
Qed.

(** C8: a table with fewer than two distinct timestamps (no two rows differ
    in their timestamp) makes the history analysis print its notice and
    return, without writing an image. *)
Theorem history_skipped_for_single_run
  (dates : DateSupport) (df : DataFrame) (output : string) :
  (forall r1 r2, In r1 df -> In r2 df -> timestamp r1 = timestamp r2) ->
  plot_history dates df output = ([Print MsgNeedRuns], inr tt)
  /\ returns_normally (plot_history dates df output)
  /\ no_image_written (plot_history dates df output).
Proof.
  intros Hsame.
  assert (Hrun : plot_history dates df output = ([Print MsgNeedRuns], inr tt)).
  { unfold plot_history. rewrite nunique_lt_2; [reflexivity|].
    intros a b Ha Hb. apply in_map_iff in Ha, Hb.
    destruct Ha as [r1 [<- H1]], Hb as [r2 [<- H2]]. auto. }
  rewrite Hrun. split; [reflexivity|]. split.
  - now exists tt.
  - intros out [Hin|[]]. discriminate Hin.
Qed.

Lemma history_skipped_for_single_run_witness :
  (forall r1 r2, In r1 df_scenario -> In r2 df_scenario ->
                 timestamp r1 = timestamp r2)
  /\ plot_history datetime64_ns df_scenario "history_plot.png"
     = ([Print MsgNeedRuns], inr tt)
  /\ returns_normally (plot_history datetime64_ns df_scenario "history_plot.png")
  /\ no_image_written (plot_history datetime64_ns df_scenario "history_plot.png").
Proof.
  assert (H : forall r1 r2, In r1 df_scenario -> In r2 df_scenario ->
                            timestamp r1 = timestamp r2).
  { intros r1 r2 [<-|[<-|[<-|[]]]] [<-|[<-|[<-|[]]]]; reflexivity. }
  split; [exact H|].
  exact (history_skipped_for_single_run
           datetime64_ns df_scenario "history_plot.png" H).
Defined.

Lemma algo_data_perm (df : DataFrame) (algo : string) :
  Permutation (algo_data df algo)
              (filter (fun r => String.eqb (algorithm r) algo) df).
Proof. apply insertion_sort_perm. Qed.

Lemma algo_data_sorted (df : DataFrame) (algo : string) :
  StronglySorted (fun a b => timestamp a <= timestamp b) (algo_data df algo).
Proof.
  unfold algo_data, sort_by_timestamp.
  apply insertion_sort_sorted with (dom := fun _ => True).
  - intros x y z. lia.
  - intros x y Hlt. apply Z.ltb_lt in Hlt. lia.
  - intros x y _ _ Hlt. apply Z.ltb_ge in Hlt. exact Hlt.
  - apply Forall_forall. auto.
Qed.

Lemma algo_data_In (df : DataFrame) (algo : string) (r : BenchmarkRecord) :
  In r (algo_data df algo) <-> In r df /\ algorithm r = algo.
Proof.
  rewrite <- String.eqb_eq.
  rewrite <- (filter_In (fun r => String.eqb (algorithm r) algo)).
  split; apply Permutation_in;
    [apply algo_data_perm|apply Permutation_sym, algo_data_perm].
Qed.

Lemma combine_columns (d : DataFrame) :
  combine (map timestamp d) (map mb_s d)
  = map (fun r => (timestamp r, mb_s r)) d.
Proof. induction d as [|r d IH]; simpl; [reflexivity|now rewrite IH]. Qed.

(** Converting the timestamps of one algorithm succeeds when every
    timestamp of the table is within the bounds. *)
Lemma to_datetime_algo_data (dates : DateSupport) (df : DataFrame) (algo : string) :
  (forall r, In r df -> datetime_in_bounds dates (timestamp r) = true) ->
  to_datetime dates (map timestamp (algo_data df algo))
  = ret (map timestamp (algo_data df algo)).
Proof.
  intros Hok. unfold to_datetime.
  replace (forallb (datetime_in_bounds dates)
                   (map timestamp (algo_data df algo))) with true;
    [reflexivity|].
  symmetry. apply forallb_forall. intros ts Hts.
  apply in_map_iff in Hts. destruct Hts as [r [<- Hr]].
  apply Hok. now apply algo_data_In in Hr.
Qed.

Lemma history_loop_drawn (dates : DateSupport) (df : DataFrame)
  (algos : list string) :
  (forall r, In r df -> datetime_in_bounds dates (timestamp r) = true) ->
  for_each algos
    (fun algo =>
       timestamps <- to_datetime dates (map timestamp (algo_data df algo)) ;;
       emit (PlotDates algo timestamps (map mb_s (algo_data df algo))))
  = (map (history_line df) algos, inr tt).
Proof.
  intros Hok. induction algos as [|a l IH]; [reflexivity|].
  cbn [for_each map]. rewrite IH, (to_datetime_algo_data dates df a Hok).
  reflexivity.
Qed.

Lemma history_drawable_spec (dates : DateSupport) (df : DataFrame) :
  history_drawable dates df = true
  <-> (forall r, In r df -> datetime_in_bounds dates (timestamp r) = true)
      /\ date_axis_in_range dates (plotted_instants df) = true.
Proof.
  unfold history_drawable. rewrite andb_true_iff, forallb_forall. reflexivity.
Qed.

Lemma plot_history_drawn (dates : DateSupport) (df : DataFrame) (output : string) :
  (Pandas.nunique (map timestamp df) <? 2)%nat = false ->
  history_drawable dates df = true ->
  plot_history dates df output
  = (map (history_line df) (Pandas.unique (map algorithm df))
     ++ [SaveFig output; Print (MsgHistorySaved output)], inr tt).
Proof.
  intros Hn Hd. apply history_drawable_spec in Hd. destruct Hd as [Hok Hax].
  unfold plot_history. rewrite Hn. cbv zeta.
  rewrite (history_loop_drawn dates df _ Hok).
  unfold xticks. rewrite Hax. reflexivity.
Qed.

(** C9, as stated, fails: with two distinct timestamps of which one is
    beyond what [pd.to_datetime] can represent, the conversion raises while
    the first algorithm is handled; no line is drawn for the second
    algorithm and no image is written. *)
Lemma history_stops_at_unrepresentable_timestamp :
  In (row 9223372036854775807 "SHA-256" 1 (f64 50)) df_far_future
  /\ In (row 1 "BlitzHash" 1 (f64 200)) df_far_future
  /\ timestamp (row 9223372036854775807 "SHA-256" 1 (f64 50))
     <> timestamp (row 1 "BlitzHash" 1 (f64 200))
  /\ In "BlitzHash"%string (Pandas.unique (map algorithm df_far_future))
  /\ plot_history datetime64_ns df_far_future "history_plot.png"
     = ([], inl OutOfBoundsDatetime)
  /\ (forall timestamps ys,
        ~ In (PlotDates "BlitzHash" timestamps ys)
             (trace (plot_history datetime64_ns df_far_future
                                  "history_plot.png"))).
Proof.
  split; [left; reflexivity|]. split; [right; left; reflexivity|].
  split; [simpl; lia|]. split; [vm_compute; tauto|].
  split; [vm_compute; reflexivity|].
  intros timestamps ys Hin. vm_compute in Hin. exact Hin.
Qed.

(** C9 (amended): with two or more distinct timestamps, all of them
    within what the date libraries can represent and show, the history
    analysis draws one line per distinct algorithm; the points of a line
    are the rows of that algorithm, every row once with its own [mb_s] and
    none averaged, in ascending timestamp order, so that two rows of one
    algorithm and one timestamp stay two points (50 and 60 at timestamp
    100 in the sample, not one point at 55). *)
Theorem history_points_are_not_aggregated :
  (forall (dates : DateSupport) (df : DataFrame) (output : string)
          (r1 r2 : BenchmarkRecord),
     In r1 df -> In r2 df -> timestamp r1 <> timestamp r2 ->
     history_drawable dates df = true ->
     plot_history dates df output
     = (map (history_line df) (Pandas.unique (map algorithm df))
        ++ [SaveFig output; Print (MsgHistorySaved output)], inr tt)
     /\ NoDup (Pandas.unique (map algorithm df))
     /\ (forall algo, In algo (Pandas.unique (map algorithm df))
                      <-> exists r, In r df /\ algorithm r = algo)
     /\ (forall algo,
           Permutation
             (combine (map timestamp (algo_data df algo))
                      (map mb_s (algo_data df algo)))
             (map (fun r => (timestamp r, mb_s r))
                  (filter (fun r => String.eqb (algorithm r) algo) df))
           /\ length (algo_data df algo)
              = length (filter (fun r => String.eqb (algorithm r) algo) df)
           /\ StronglySorted (fun a b => timestamp a <= timestamp b)
                             (algo_data df algo)))
  /\ (exists timestamps ys,
        In (PlotDates "SHA-256" timestamps ys)
           (trace (plot_history datetime64_ns df_repeated "history_plot.png"))
        /\ timestamps = [50; 100; 100]
        /\ Permutation (combine timestamps ys)
                       [(50, f64 40); (100, f64 50); (100, f64 60)]).
Proof.
  split.
  2:{ exists [50; 100; 100], [f64 40; f64 50; f64 60].
      split; [vm_compute; tauto|]. split; reflexivity. }
  intros dates df output r1 r2 H1 H2 Hne Hd. split; [|split; [|split]].
  - apply plot_history_drawn; [|exact Hd].
    apply (nunique_ge_2 _ (timestamp r1) (timestamp r2));
      [now apply in_map|now apply in_map|exact Hne].
  - apply unique_NoDup.
  - intros algo. rewrite unique_In, in_map_iff.
    split; intros [r Hr]; exists r; tauto.
  - intros algo. split; [|split].
    + rewrite combine_columns. apply Permutation_map, algo_data_perm.
    + apply Permutation_length, algo_data_perm.
    + apply algo_data_sorted.
Qed.

(** The history of the sample with a repeated row, as this model orders
    rows of equal timestamp (in row order). *)
Example history_of_repeated_rows :
  plot_history datetime64_ns df_repeated "history_plot.png"
  = ([ PlotDates "SHA-256" [50; 100; 100] [f64 40; f64 50; f64 60];
       PlotDates "BlitzHash" [100] [f64 200];
       SaveFig "history_plot.png";
       Print (MsgHistorySaved "history_plot.png") ], inr tt).
Proof. vm_compute. reflexivity. Qed.

Lemma history_points_are_not_aggregated_witness :
  In (row 100 "SHA-256" 1 (f64 50)) df_repeated
  /\ In (row 50 "SHA-256" 1 (f64 40)) df_repeated
  /\ timestamp (row 100 "SHA-256" 1 (f64 50))
     <> timestamp (row 50 "SHA-256" 1 (f64 40))
  /\ history_drawable datetime64_ns df_repeated = true
  /\ plot_history datetime64_ns df_repeated "history_plot.png"
     = (map (history_line df_repeated)
            (Pandas.unique (map algorithm df_repeated))
        ++ [SaveFig "history_plot.png";
            Print (MsgHistorySaved "history_plot.png")], inr tt).
Proof.
  assert (H1 : In (row 100 "SHA-256" 1 (f64 50)) df_repeated)
    by (left; reflexivity).
  assert (H2 : In (row 50 "SHA-256" 1 (f64 40)) df_repeated)
    by (right; left; reflexivity).
  assert (Hne : timestamp (row 100 "SHA-256" 1 (f64 50))
                <> timestamp (row 50 "SHA-256" 1 (f64 40)))
    by (simpl; lia).
  assert (Hd : history_drawable datetime64_ns df_repeated = true)
    by (vm_compute; reflexivity).
  split; [exact H1|]. split; [exact H2|]. split; [exact Hne|].
  split; [exact Hd|].
  exact (proj1 (proj1 history_points_are_not_aggregated
                  datetime64_ns df_repeated "history_plot.png"%string
                  _ _ H1 H2 Hne Hd)).
Defined.

(* ===================================================================== *)
(** * Further properties of the throughput comparison *)
(* ===================================================================== *)

Lemma saved_images_app (t1 t2 : list event) :
  saved_images (t1 ++ t2) = saved_images t1 ++ saved_images t2.
Proof.
  induction t1 as [|e t1 IH]; simpl; [reflexivity|].
  destruct e; simpl; now rewrite IH.
Qed.

Lemma printed_rows_app (t1 t2 : list event) :
  printed_rows (t1 ++ t2) = printed_rows t1 ++ printed_rows t2.
Proof.
  induction t1 as [|e t1 IH]; simpl; [reflexivity|].
  destruct e as [[]| | | | | |]; simpl; now rewrite IH.
Qed.

Lemma saved_images_In (t : list event) (output : string) :
  In output (saved_images t) <-> In (SaveFig output) t.
Proof.
  induction t as [|e t IH]; simpl; [reflexivity|].
  destruct e; simpl; rewrite IH; intuition (try discriminate).
  - left. congruence.
  - left. congruence.
Qed.

Lemma bar_texts_quiet (ax : panel) (widths : list float) :
  saved_images (map (BarText ax) widths) = []
  /\ printed_rows (map (BarText ax) widths) = [].
Proof. induction widths as [|w l [IH1 IH2]]; simpl; auto. Qed.

Lemma table_rows_quiet (summary : Pandas.Series string) (baseline : float) :
  saved_images (table_rows summary baseline) = []
  /\ printed_rows (table_rows summary baseline)
     = map (fun kv => (fst kv, snd kv, F64.div (snd kv) baseline)) summary.
Proof.
  induction summary as [|kv s [IH1 IH2]]; simpl; [auto|].
  split; [exact IH1|now rewrite IH2].
Qed.

Lemma comparison_trace_images (summary : Pandas.Series string)
  (baseline : float) (output : string) :
  saved_images (comparison_trace summary baseline output) = [output].
Proof.
  unfold comparison_trace. cbv zeta. rewrite !saved_images_app.
  rewrite (proj1 (bar_texts_quiet _ _)), (proj1 (bar_texts_quiet _ _)).
  rewrite (proj1 (table_rows_quiet _ _)). reflexivity.
Qed.

Lemma comparison_trace_rows (summary : Pandas.Series string)
  (baseline : float) (output : string) :
  printed_rows (comparison_trace summary baseline output)
  = map (fun kv => (fst kv, snd kv, F64.div (snd kv) baseline)) summary.
Proof.
  unfold comparison_trace. cbv zeta. rewrite !printed_rows_app.
  rewrite (proj2 (bar_texts_quiet _ _)), (proj2 (bar_texts_quiet _ _)).
  rewrite (proj2 (table_rows_quiet _ _)). simpl. now rewrite app_nil_r.
Qed.

Lemma combine_bars {K} (s : Pandas.Series K) (x : float) :
  combine (combine (Pandas.index s) (Pandas.values s))
          (Pandas.values (Pandas.series_div s x))
  = map (fun kv => (fst kv, snd kv, F64.div (snd kv) x)) s.
Proof.
  induction s as [|[k v] s IH]; simpl; [reflexivity|].
  f_equal. exact IH.
Qed.

Lemma run_summary_head (df : DataFrame) :
  df <> [] -> exists algo baseline rest, run_summary df = (algo, baseline) :: rest.
Proof.
  intros Hne. apply latest_run_nonempty in Hne.
  apply run_summary_nonempty in Hne.
  destruct (run_summary df) as [|[algo baseline] rest]; [congruence|eauto].
Qed.

(** X1: on every non-empty table the throughput comparison runs to its end
    without an exception (neither [iloc] nor the label lookups of the table
    loop fail) and writes exactly one image, to the path it was given. *)
Theorem comparison_completes_on_nonempty_table (df : DataFrame) (output : string) :
  df <> [] ->
  outcome (plot_throughput_comparison df output) = inr tt
  /\ saved_images (trace (plot_throughput_comparison df output)) = [output].
Proof.
  intros Hne. destruct (run_summary_head df Hne) as [algo [b [rest E]]].
  rewrite (plot_throughput_comparison_run df output _ _ _ E).
  split; [reflexivity|]. apply comparison_trace_images.
Qed.

Lemma comparison_completes_on_nonempty_table_witness :
  df_two_runs <> []
  /\ outcome (plot_throughput_comparison df_two_runs "bench_plot.png") = inr tt
  /\ saved_images (trace (plot_throughput_comparison df_two_runs "bench_plot.png"))
     = ["bench_plot.png"%string].
Proof.
  assert (H : df_two_runs <> []) by discriminate.
  split; [exact H|].
  exact (comparison_completes_on_nonempty_table df_two_runs "bench_plot.png" H).
Defined.

(** X2: the summary table agrees with the two bar charts: its rows are, in
    bar order, the label and width of each bar of the absolute panel with
    the width of the bar of the same rank in the relative panel, although
    the table recomputes each row by a label lookup and a scalar division. *)
Theorem table_agrees_with_bar_charts (df : DataFrame) (output : string) :
  df <> [] ->
  exists labels widths speedups,
    In (BarH AbsoluteThroughput labels widths)
       (trace (plot_throughput_comparison df output))
    /\ In (BarH RelativePerformance labels speedups)
          (trace (plot_throughput_comparison df output))
    /\ length widths = length labels
    /\ length speedups = length labels
    /\ printed_rows (trace (plot_throughput_comparison df output))
       = combine (combine labels widths) speedups.
Proof.
  intros Hne. destruct (run_summary_head df Hne) as [algo [b [rest E]]].
  rewrite (plot_throughput_comparison_run df output _ _ _ E).
  set (s := run_summary df).
  exists (Pandas.index s), (Pandas.values s),
         (Pandas.values (Pandas.series_div s b)).
  split; [|split; [|split; [|split]]].
  - unfold trace, comparison_trace. simpl. now left.
  - unfold trace, comparison_trace. cbv zeta.
    replace (Pandas.index (Pandas.series_div s b)) with (Pandas.index s)
      by (unfold Pandas.index, Pandas.series_div; now rewrite map_map).
    cbn [fst]. apply in_or_app. right. apply in_or_app. right.
    apply in_or_app. left. now left.
  - unfold Pandas.values, Pandas.index. now rewrite !length_map.
  - unfold Pandas.values, Pandas.index, Pandas.series_div.
    now rewrite !length_map.
  - unfold trace. cbn [fst]. rewrite comparison_trace_rows.
    symmetry. apply combine_bars.
Qed.

Lemma table_agrees_with_bar_charts_witness :
  df_two_runs <> []
  /\ exists labels widths speedups,
       In (BarH AbsoluteThroughput labels widths)
          (trace (plot_throughput_comparison df_two_runs "bench_plot.png"))
       /\ In (BarH RelativePerformance labels speedups)
             (trace (plot_throughput_comparison df_two_runs "bench_plot.png"))
       /\ length widths = length labels
       /\ length speedups = length labels
       /\ printed_rows (trace (plot_throughput_comparison df_two_runs "bench_plot.png"))
          = combine (combine labels widths) speedups.
Proof.
  assert (H : df_two_runs <> []) by discriminate.
  split; [exact H|].
  exact (table_agrees_with_bar_charts df_two_runs "bench_plot.png" H).
Defined.

(** X3: the summary has exactly one entry per algorithm of the latest run:
    its labels are pairwise distinct, and a name is a label if and only if
    some row of the latest run carries it. *)
Theorem summary_has_one_entry_per_latest_algorithm (df : DataFrame) :
  NoDup (Pandas.index (run_summary df))
  /\ forall algo,
       In algo (Pandas.index (run_summary df))
       <-> exists r, In r (latest_run df) /\ algorithm r = algo.
Proof.
  split; [apply run_summary_index_NoDup|]. intros algo.
  assert (Hp : Permutation (Pandas.index (run_summary df))
                           (Pandas.index (latest_means df)))
    by (apply Permutation_map, run_summary_perm).
  split.
  - intros Hin. apply (Permutation_in _ Hp) in Hin.
    unfold latest_means in Hin.
    apply (proj1 (groupby_mean_keys _ _)) in Hin.
    rewrite map_map in Hin. apply in_map_iff in Hin.
    destruct Hin as [r [Ha Hr]]. now exists r.
  - intros [r [Hr Ha]]. apply (Permutation_in _ (Permutation_sym Hp)).
    unfold latest_means. apply groupby_mean_keys. rewrite map_map.
    apply in_map_iff. now exists r.
Qed.

(** X4: the bars of the summary ascend: the summary is a run of non-NaN
    means in non-decreasing order followed by the NaN means. *)
Theorem summary_ascends_with_nan_last (df : DataFrame) :
  exists ok nans,
    run_summary df = ok ++ nans
    /\ StronglySorted (fun a b => F64.leb (snd a) (snd b) = true) ok
    /\ Forall (fun kv => F64.is_nan (snd kv) = false) ok
    /\ Forall (fun kv => F64.is_nan (snd kv) = true) nans.
Proof.
  unfold run_summary, Pandas.sort_values. fold (latest_means df).
  eexists. eexists. split; [reflexivity|]. split; [|split].
  - apply sort_values_sorted.
  - eapply Permutation_Forall.
    + symmetry. apply insertion_sort_perm.
    + apply Forall_forall. intros kv Hkv. apply filter_In in Hkv.
      destruct Hkv as [_ Hkv]. now apply negb_true_iff in Hkv.
  - apply Forall_forall. intros kv Hkv. apply filter_In in Hkv.
    now destruct Hkv.
Qed.

(** X5: the latest run of a non-empty table is not empty; its rows are
    exactly the rows of the table that carry the largest timestamp of the
    table. *)
Theorem latest_run_is_the_rows_of_the_largest_timestamp (df : DataFrame) :
  df <> [] ->
  exists latest_timestamp,
    latest_run df <> []
    /\ (forall r, In r df -> timestamp r <= latest_timestamp)
    /\ (forall r, In r (latest_run df)
                  <-> In r df /\ timestamp r = latest_timestamp).
Proof.
  intros Hne.
  destruct (series_max_nonempty (map timestamp df)) as [m Hm].
  { destruct df; [congruence|discriminate]. }
  exists m. split; [now apply latest_run_nonempty|].
  rewrite (latest_run_max df m Hm).
  apply series_max_spec in Hm. destruct Hm as [_ Hub]. split.
  - intros r Hr. apply Hub. now apply in_map.
  - intros r. rewrite filter_In, Z.eqb_eq. reflexivity.
Qed.

Lemma latest_run_is_the_rows_of_the_largest_timestamp_witness :
  df_two_runs <> []
  /\ exists latest_timestamp,
       latest_run df_two_runs <> []
       /\ (forall r, In r df_two_runs -> timestamp r <= latest_timestamp)
       /\ (forall r, In r (latest_run df_two_runs)
                     <-> In r df_two_runs /\ timestamp r = latest_timestamp).
Proof.
  assert (H : df_two_runs <> []) by discriminate.
  split; [exact H|].
  exact (latest_run_is_the_rows_of_the_largest_timestamp df_two_runs H).
Defined.

(** Dividing a canonical finite double by 1.0 gives it back: the quotient
    of the mantissas is exact and rounding a canonical mantissa changes
    nothing. *)
Lemma div_eucl_exact (q b : Z) : 0 < b -> Z.div_eucl (q * b) b = (q, 0).
Proof.
  intros Hb.
  pose proof (Z.div_mul q b) as Hd. pose proof (Z.mod_mul q b) as Hm.
  unfold Z.modulo, Z.div in Hd, Hm.
  destruct (Z.div_eucl (q * b) b) as [q' r].
  rewrite Hd, Hm by lia. reflexivity.
Qed.

Lemma round_canonical (s : bool) (m : positive) (e : Z) :
  bounded F64.prec F64.emax m e = true ->
  binary_round_aux F64.prec F64.emax s (Z.pos m) e loc_Exact = S754_finite s m e.
Proof.
  unfold bounded, canonical_mantissa. intros Hb.
  apply andb_true_iff in Hb. destruct Hb as [Hc He].
  apply Z.eqb_eq in Hc.
  unfold binary_round_aux, shr_fexp.
  cbn [Zdigits2 shr_record_of_loc]. rewrite Hc, Z.sub_diag.
  cbn [shr shr_m loc_of_shr_record round_nearest_even Zdigits2 shr_record_of_loc].
  rewrite Hc, Z.sub_diag. cbn [shr shr_m]. rewrite He. reflexivity.
Qed.

Lemma div_one (x : float) :
  F64.is_finite_nonzero x = true -> is_binary64 x = true ->
  F64.div x F64.one = x.
Proof.
  destruct x as [s|s| |s m e]; try discriminate. intros _ Hb.
  unfold is_binary64, valid_binary in Hb. pose proof Hb as Hb'.
  unfold bounded, canonical_mantissa in Hb'.
  apply andb_true_iff in Hb'. destruct Hb' as [Hc He].
  apply Z.eqb_eq in Hc. apply Z.leb_le in He.
  rewrite <- (round_canonical s m e Hb) at 2.
  unfold F64.div, F64.one, SFdiv, SFdiv_core_binary.
  change (Zdigits2 4503599627370496) with 53.
  change (Zdigits2 (Z.pos m)) with (Z.pos (digits2_pos m)).
  rewrite xorb_false_r.
  set (d := Z.pos (digits2_pos m)) in *.
  unfold fexp, emin, F64.prec, F64.emax in Hc, He.
  destruct (Z_lt_le_dec (-1074) e) as [Hn|Hs].
  - (* normal numbers: 53 digits *)
    assert (Hd : d = 53) by lia.
    replace (Z.min (fexp F64.prec F64.emax (d + e - (53 + -52))) (e - -52))
      with (e - 1) by (unfold fexp, emin, F64.prec, F64.emax; lia).
    replace (e - -52 - (e - 1)) with 53 by lia.
    cbv iota beta zeta.
    rewrite Z.shiftl_mul_pow2 by lia.
    replace (Z.pos m * 2 ^ 53) with (Z.pos m~0 * 4503599627370496) by lia.
    rewrite div_eucl_exact by lia.
    change (new_location 4503599627370496 0) with loc_Exact.
    assert (Hshr : shr_fexp F64.prec F64.emax (Z.pos m~0) (e - 1) loc_Exact
                   = shr_fexp F64.prec F64.emax (Z.pos m) e loc_Exact).
    { unfold shr_fexp. cbn [Zdigits2 shr_record_of_loc digits2_pos]. fold d.
      replace (fexp F64.prec F64.emax
                 (Z.pos (Pos.succ (digits2_pos m)) + (e - 1)) - (e - 1))
        with 1 by (unfold fexp, emin, F64.prec, F64.emax; lia).
      replace (fexp F64.prec F64.emax (d + e) - e) with 0
        by (unfold fexp, emin, F64.prec, F64.emax; lia).
      cbn [shr iter_pos shr_1 orb]. f_equal. lia. }
    unfold binary_round_aux. rewrite Hshr. reflexivity.
  - (* subnormal numbers: the least exponent *)
    assert (He' : e = -1074) by lia. subst e.
    replace (Z.min (fexp F64.prec F64.emax (d + -1074 - (53 + -52)))
                   (-1074 - -52))
      with (-1074) by (unfold fexp, emin, F64.prec, F64.emax; lia).
    change (-1074 - -52 - -1074) with 52.
    cbv iota beta zeta.
    rewrite Z.shiftl_mul_pow2 by lia.
    change (2 ^ 52) with 4503599627370496.
    rewrite div_eucl_exact by lia.
    change (new_location 4503599627370496 0) with loc_Exact.
    reflexivity.
Qed.

Lemma mean_singleton (x : float) :
  F64.is_finite_nonzero x = true -> is_binary64 x = true ->
  Pandas.mean [x] = x.
Proof.
  intros Hf Hb. unfold Pandas.mean, Pandas.mean_finish.
  cbn [fold_left]. unfold Pandas.mean_step.
  destruct x as [s|s| |s m e]; try discriminate.
  cbn [F64.is_nan Pandas.nobs Pandas.sumx Pandas.compensation Pandas.mean_init].
  change (0 + 1 =? 0) with false. cbv iota.
  change (F64.of_Z (0 + 1)) with F64.one.
  change (F64.add F64.zero (F64.sub (S754_finite s m e) F64.zero))
    with (S754_finite s m e).
  now apply div_one.
Qed.

(** X6: an algorithm that the latest run measured once, with a finite
    non-zero throughput, appears in the summary with exactly that
    throughput: averaging one measurement does not alter it. *)
Theorem single_measurement_is_its_own_mean
  (df : DataFrame) (algo : string) (r : BenchmarkRecord) :
  filter (fun r' => String.eqb (algorithm r') algo) (latest_run df) = [r] ->
  F64.is_finite_nonzero (mb_s r) = true ->
  is_binary64 (mb_s r) = true ->
  In (algo, mb_s r) (run_summary df).
Proof.
  intros Hone Hf Hb.
  assert (Hr : In r (latest_run df) /\ String.eqb (algorithm r) algo = true).
  { apply (proj1 (filter_In (fun r' => String.eqb (algorithm r') algo) r
                             (latest_run df))).
    rewrite Hone. now left. }
  destruct Hr as [Hr Ha]. apply String.eqb_eq in Ha.
  assert (Hk : In algo (Pandas.index (latest_means df))).
  { unfold latest_means. apply groupby_mean_keys. rewrite map_map.
    apply in_map_iff. now exists r. }
  apply in_map_iff in Hk. destruct Hk as [[a v] [Hav Hin]].
  simpl in Hav. subst a.
  destruct (latest_means_value df algo v Hin) as [_ Hv].
  rewrite Hone in Hv. simpl in Hv. rewrite mean_singleton in Hv by assumption.
  subst v.
  apply (Permutation_in _ (Permutation_sym (run_summary_perm df))). exact Hin.
Qed.

Lemma single_measurement_is_its_own_mean_witness :
  filter (fun r' => String.eqb (algorithm r') "BlitzHash")
         (latest_run df_two_runs)
  = [row 100 "BlitzHash" 1 (f64 200)]
  /\ F64.is_finite_nonzero (mb_s (row 100 "BlitzHash" 1 (f64 200))) = true
  /\ is_binary64 (mb_s (row 100 "BlitzHash" 1 (f64 200))) = true
  /\ In ("BlitzHash"%string, mb_s (row 100 "BlitzHash" 1 (f64 200)))
        (run_summary df_two_runs).
Proof.
  assert (H1 : filter (fun r' => String.eqb (algorithm r') "BlitzHash")
                      (latest_run df_two_runs)
               = [row 100 "BlitzHash" 1 (f64 200)])
    by (vm_compute; reflexivity).
  assert (H2 : F64.is_finite_nonzero (mb_s (row 100 "BlitzHash" 1 (f64 200)))
               = true) by (vm_compute; reflexivity).
  assert (H3 : is_binary64 (mb_s (row 100 "BlitzHash" 1 (f64 200))) = true)
    by (vm_compute; reflexivity).
  split; [exact H1|]. split; [exact H2|]. split; [exact H3|].
  exact (single_measurement_is_its_own_mean df_two_runs "BlitzHash" _ H1 H2 H3).
Defined.

(* ===================================================================== *)
(** * Further properties of the scaling analysis *)
(* ===================================================================== *)

Section GroupCount.
Context {K : Type} `{OrdKey K} `{!OrdKeyLaws K}.

(** There are as many groups as distinct keys. *)
Lemma groupby_mean_length (rows : list (K * float)) :
  length (Pandas.groupby_mean rows) = Pandas.nunique (map fst rows).
Proof.
  unfold Pandas.nunique. rewrite <- (length_map fst).
  apply Permutation_length, NoDup_Permutation.
  - apply key_sorted_NoDup, groupby_mean_sorted.
  - apply unique_NoDup.
  - intros k. fold (Pandas.index (Pandas.groupby_mean rows)).
    rewrite groupby_mean_keys, unique_In. reflexivity.
Qed.
End GroupCount.

Lemma scaling_curve_length (df : DataFrame) :
  length (scaling_curve df) = Pandas.nunique (map threads (parallel_rows df)).
Proof.
  rewrite scaling_curve_groups, groupby_mean_length, map_map. reflexivity.
Qed.

Lemma plot_threading_scaling_no_rows (df : DataFrame) (output : string) :
  parallel_rows df = [] ->
  plot_threading_scaling df output = ([Print MsgNoParallel], inr tt).
Proof. intros E. unfold plot_threading_scaling. cbv zeta. now rewrite E. Qed.

Lemma plot_threading_scaling_few_counts (df : DataFrame) (output : string) :
  parallel_rows df <> [] ->
  (length (scaling_curve df) < 2)%nat ->
  plot_threading_scaling df output = ([Print MsgNeedThreadCounts], inr tt).
Proof.
  intros Hne Hlen. unfold plot_threading_scaling. cbv zeta.
  fold (scaling_curve df).
  destruct (parallel_rows df) as [|r0 par]; [congruence|].
  cbn [length Nat.eqb].
  destruct (Nat.ltb_spec (length (scaling_curve df)) 2); [reflexivity|lia].
Qed.

Lemma plot_threading_scaling_drawn (df : DataFrame) (output : string) :
  (2 <= length (scaling_curve df))%nat ->
  exists single_thread_speed,
    plot_threading_scaling df output
    = (scaling_trace (scaling_curve df) single_thread_speed output, inr tt).
Proof.
  intros Hlen.
  destruct (length_ge_2_cons _ Hlen) as [[t0 m0] [y [rest E]]].
  exists m0. now apply plot_threading_scaling_run with (t0 := t0) (rest := y :: rest).
Qed.

Lemma sorted_keys_map {X} (s : list (Z * X)) :
  key_sorted s -> StronglySorted Z.lt (map fst s).
Proof.
  induction 1 as [|x s Hs IH Hx]; simpl; constructor; [exact IH|].
  rewrite Forall_map. eapply Forall_impl; [|exact Hx].
  intros y Hy. simpl in Hy. now apply -> Z.compare_lt_iff in Hy.
Qed.

(** X7: when the table has rows of the parallel variant but all of them
    were measured with one and the same thread count, the scaling analysis
    prints its second notice and returns without writing an image. *)
Theorem scaling_skipped_for_single_thread_count
  (df : DataFrame) (output : string) (r0 : BenchmarkRecord) :
  In r0 df -> algorithm r0 = parallel_label ->
  (forall r, In r df -> algorithm r = parallel_label -> threads r = threads r0) ->
  plot_threading_scaling df output = ([Print MsgNeedThreadCounts], inr tt)
  /\ saved_images (trace (plot_threading_scaling df output)) = [].
Proof.
  intros H0 Ha0 Hall.
  assert (Hrun : plot_threading_scaling df output
                 = ([Print MsgNeedThreadCounts], inr tt)).
  { apply plot_threading_scaling_few_counts.
    - intros E.
      assert (Hin : In r0 (parallel_rows df))
        by (apply filter_In; split; [exact H0|now apply String.eqb_eq]).
      rewrite E in Hin. destruct Hin.
    - rewrite <- (length_map fst). apply NoDup_all_equal.
      + apply key_sorted_NoDup, scaling_curve_sorted.
      + intros a b Ha Hb.
        apply (proj1 (scaling_curve_keys df a)) in Ha.
        apply (proj1 (scaling_curve_keys df b)) in Hb.
        destruct Ha as [ra [Hra [Haa <-]]], Hb as [rb [Hrb [Hab <-]]].
        rewrite (Hall ra), (Hall rb); auto. }
  rewrite Hrun. split; reflexivity.
Qed.

Lemma scaling_skipped_for_single_thread_count_witness :
  In (row 100 "BlitzHash-MT" 4 (f64 600)) df_one_thread_count
  /\ algorithm (row 100 "BlitzHash-MT" 4 (f64 600)) = parallel_label
  /\ (forall r, In r df_one_thread_count -> algorithm r = parallel_label ->
                threads r = threads (row 100 "BlitzHash-MT" 4 (f64 600)))
  /\ plot_threading_scaling df_one_thread_count "threading_plot.png"
     = ([Print MsgNeedThreadCounts], inr tt)
  /\ saved_images (trace (plot_threading_scaling df_one_thread_count
                                                 "threading_plot.png")) = [].
Proof.
  assert (H0 : In (row 100 "BlitzHash-MT" 4 (f64 600)) df_one_thread_count)
    by (right; left; reflexivity).
  assert (Hall : forall r, In r df_one_thread_count ->
                           algorithm r = parallel_label ->
                           threads r = threads (row 100 "BlitzHash-MT" 4 (f64 600))).
  { intros r [<-|[<-|[<-|[]]]] Ha; simpl in *;
      first [reflexivity|discriminate Ha]. }
  split; [exact H0|]. split; [reflexivity|]. split; [exact Hall|].
  exact (scaling_skipped_for_single_thread_count
           df_one_thread_count "threading_plot.png" _ H0 eq_refl Hall).
Defined.

Lemma plot_threading_scaling_returns (df : DataFrame) (output : string) :
  plot_threading_scaling df output
  = (trace (plot_threading_scaling df output), inr tt)
  /\ saved_images (trace (plot_threading_scaling df output))
     = if (2 <=? length (scaling_curve df))%nat then [output] else [].
Proof.
  destruct (Nat.leb_spec 2 (length (scaling_curve df))) as [Hlen|Hlen].
  - destruct (plot_threading_scaling_drawn df output Hlen) as [m0 ->].
    split; reflexivity.
  - destruct (parallel_rows df) as [|r0 par] eqn:Epar.
    + rewrite (plot_threading_scaling_no_rows df output Epar).
      split; reflexivity.
    + rewrite (plot_threading_scaling_few_counts df output);
        [|congruence|exact Hlen].
      split; reflexivity.
Qed.

(** X8: the scaling analysis never raises, and it writes its image, once
    and to the path it was given, exactly when the rows of the parallel
    variant show at least two distinct thread counts. *)
Theorem scaling_image_iff_two_thread_counts (df : DataFrame) (output : string) :
  outcome (plot_threading_scaling df output) = inr tt
  /\ saved_images (trace (plot_threading_scaling df output))
     = if (2 <=? Pandas.nunique (map threads (parallel_rows df)))%nat
       then [output] else [].
Proof.
  destruct (plot_threading_scaling_returns df output) as [Hret Himg].
  split.
  - rewrite Hret. reflexivity.
  - rewrite Himg, scaling_curve_length. reflexivity.
Qed.

(** X9: the thread-count axis of the measured line ascends strictly, and
    the thread counts on it are exactly those that occur in the rows of the
    parallel variant. *)
Theorem scaling_curve_axis_is_strictly_ascending (df : DataFrame) :
  StronglySorted Z.lt (Pandas.index (scaling_curve df))
  /\ forall t,
       In t (Pandas.index (scaling_curve df))
       <-> exists r, In r df /\ algorithm r = parallel_label /\ threads r = t.
Proof.
  split; [apply sorted_keys_map, scaling_curve_sorted|].
  intros t. apply scaling_curve_keys.
Qed.

Lemma parallel_rows_drop (pre post : DataFrame) (r : BenchmarkRecord) :
  algorithm r <> parallel_label ->
  parallel_rows (pre ++ r :: post) = parallel_rows (pre ++ post).
Proof.
  intros Hne. unfold parallel_rows. rewrite !filter_app. simpl.
  destruct (String.eqb_spec (algorithm r) parallel_label); [congruence|reflexivity].
Qed.

Lemma plot_threading_scaling_parallel (df df' : DataFrame) (output : string) :
  parallel_rows df = parallel_rows df' ->
  plot_threading_scaling df output = plot_threading_scaling df' output.
Proof. unfold plot_threading_scaling. cbv zeta. now intros ->. Qed.

(** X10: rows of other algorithms never influence the scaling analysis:
    it does on a table what it does on the rows of the parallel variant
    alone, and dropping (or adding) a row of another algorithm, wherever it
    stands, changes nothing. *)
Theorem scaling_ignores_other_algorithms (df : DataFrame) (output : string) :
  plot_threading_scaling df output
  = plot_threading_scaling (parallel_rows df) output
  /\ forall pre post r,
       df = pre ++ r :: post -> algorithm r <> parallel_label ->
       plot_threading_scaling df output
       = plot_threading_scaling (pre ++ post) output.
Proof.
  split.
  - apply plot_threading_scaling_parallel. unfold parallel_rows.
    symmetry. apply filter_idem.
  - intros pre post r -> Hne. apply plot_threading_scaling_parallel.
    now apply parallel_rows_drop.
Qed.

Lemma scaling_ignores_other_algorithms_witness :
  df_one_thread_count
  = [] ++ row 100 "SHA-256" 1 (f64 50)
          :: [ row 100 "BlitzHash-MT" 4 (f64 600);
               row 200 "BlitzHash-MT" 4 (f64 620) ]
  /\ algorithm (row 100 "SHA-256" 1 (f64 50)) <> parallel_label
  /\ plot_threading_scaling df_one_thread_count "threading_plot.png"
     = plot_threading_scaling
         ([] ++ [ row 100 "BlitzHash-MT" 4 (f64 600);
                  row 200 "BlitzHash-MT" 4 (f64 620) ])
         "threading_plot.png".
Proof.
  assert (Hne : algorithm (row 100 "SHA-256" 1 (f64 50)) <> parallel_label)
    by discriminate.
  split; [reflexivity|]. split; [exact Hne|].
  exact (proj2 (scaling_ignores_other_algorithms
                  df_one_thread_count "threading_plot.png")
               [] _ _ eq_refl Hne).
Defined.

(* ===================================================================== *)
(** * Further properties of the history analysis and of [main] *)
(* ===================================================================== *)

Lemma history_lines_images (df : DataFrame) (algos : list string) :
  saved_images (map (history_line df) algos) = [].
Proof. induction algos as [|a l IH]; simpl; auto. Qed.

Lemma plotted_points_app (t1 t2 : list event) :
  plotted_points (t1 ++ t2) = (plotted_points t1 + plotted_points t2)%nat.
Proof.
  induction t1 as [|e t1 IH]; simpl; [reflexivity|].
  destruct e; simpl; rewrite IH; lia.
Qed.

Lemma history_lines_points (df : DataFrame) (algos : list string) :
  plotted_points (map (history_line df) algos)
  = list_sum (map (fun algo =>
                     length (filter (fun r => String.eqb (algorithm r) algo) df))
                  algos).
Proof.
  induction algos as [|a l IH]; simpl; [reflexivity|].
  rewrite IH, length_map. f_equal.
  apply Permutation_length, algo_data_perm.
Qed.

(** A key counts once among pairwise distinct keys that contain it. *)
Lemma count_key_once (k : string) (keys : list string) :
  NoDup keys -> In k keys ->
  list_sum (map (fun k' => if String.eqb k k' then 1%nat else 0%nat) keys) = 1%nat.
Proof.
  induction 1 as [|k0 keys Hnot Hnd IH]; simpl; [easy|].
  intros [->|Hin].
  - rewrite String.eqb_refl. f_equal.
    clear IH Hnd. induction keys as [|k1 keys IH]; simpl; [reflexivity|].
    destruct (String.eqb_spec k k1) as [->|_].
    + exfalso. apply Hnot. now left.
    + apply IH. intros Hk. apply Hnot. now right.
  - destruct (String.eqb_spec k k0) as [->|_]; [contradiction|].
    now apply IH.
Qed.

(** Splitting rows by pairwise distinct keys that cover them loses and
    repeats no row. *)
Lemma rows_split_by_key (keys : list string) (df : DataFrame) :
  NoDup keys ->
  (forall r, In r df -> In (algorithm r) keys) ->
  list_sum (map (fun algo =>
                   length (filter (fun r => String.eqb (algorithm r) algo) df))
                keys)
  = length df.
Proof.
  intros Hnd. induction df as [|r df IH]; intros Hcov.
  - clear. induction keys as [|k keys IHk]; simpl; [reflexivity|exact IHk].
  - assert (Hr : list_sum (map (fun k' => if String.eqb (algorithm r) k'
                                           then 1%nat else 0%nat) keys) = 1%nat)
      by (apply count_key_once; [exact Hnd|apply Hcov; now left]).
    assert (IH' := IH (fun r' Hr' => Hcov r' (or_intror Hr'))).
    replace (length (r :: df))
      with (list_sum (map (fun k' => if String.eqb (algorithm r) k'
                                     then 1%nat else 0%nat) keys)
            + length df)%nat by (rewrite Hr; reflexivity).
    rewrite <- IH'. clear.
    unfold list_sum. induction keys as [|k keys IHk]; [reflexivity|].
    cbn [map fold_right]. rewrite IHk. cbn [filter].
    destruct (String.eqb (algorithm r) k); cbn [length]; lia.
Qed.

(** X11: when the history chart is drawn (two or more distinct timestamps,
    all within what the date libraries can represent and show), every row
    of the table is one point on exactly one line: the points of all lines
    together are as many as the rows, and one image is written. *)
Theorem history_plots_every_row_once
  (dates : DateSupport) (df : DataFrame) (output : string)
  (r1 r2 : BenchmarkRecord) :
  In r1 df -> In r2 df -> timestamp r1 <> timestamp r2 ->
  history_drawable dates df = true ->
  plotted_points (trace (plot_history dates df output)) = length df
  /\ saved_images (trace (plot_history dates df output)) = [output].
Proof.
  intros H1 H2 Hne Hd. rewrite plot_history_drawn; [|
    apply (nunique_ge_2 _ (timestamp r1) (timestamp r2));
      [now apply in_map|now apply in_map|exact Hne] | exact Hd].
  unfold trace. cbn [fst]. split.
  - rewrite plotted_points_app, history_lines_points. simpl.
    rewrite Nat.add_0_r. apply rows_split_by_key.
    + apply unique_NoDup.
    + intros r Hr. apply unique_In. now apply in_map.
  - rewrite saved_images_app, history_lines_images. reflexivity.
Qed.

Lemma history_plots_every_row_once_witness :
  In (row 100 "SHA-256" 1 (f64 50)) df_repeated
  /\ In (row 50 "SHA-256" 1 (f64 40)) df_repeated
  /\ timestamp (row 100 "SHA-256" 1 (f64 50))
     <> timestamp (row 50 "SHA-256" 1 (f64 40))
  /\ history_drawable datetime64_ns df_repeated = true
  /\ plotted_points (trace (plot_history datetime64_ns df_repeated
                                         "history_plot.png"))
     = length df_repeated
  /\ saved_images (trace (plot_history datetime64_ns df_repeated
                                       "history_plot.png"))
     = ["history_plot.png"%string].
Proof.
  assert (H1 : In (row 100 "SHA-256" 1 (f64 50)) df_repeated)
    by (left; reflexivity).
  assert (H2 : In (row 50 "SHA-256" 1 (f64 40)) df_repeated)
    by (right; left; reflexivity).
  assert (Hne : timestamp (row 100 "SHA-256" 1 (f64 50))
                <> timestamp (row 50 "SHA-256" 1 (f64 40)))
    by (simpl; lia).
  assert (Hd : history_drawable datetime64_ns df_repeated = true)
    by (vm_compute; reflexivity).
  split; [exact H1|]. split; [exact H2|]. split; [exact Hne|].
  split; [exact Hd|].
  exact (history_plots_every_row_once
           datetime64_ns df_repeated "history_plot.png" _ _ H1 H2 Hne Hd).
Defined.

(** The loop over the algorithms stops at the first algorithm with a
    timestamp that does not convert; up to there it has only drawn lines. *)
Lemma history_loop_raises (dates : DateSupport) (df : DataFrame)
  (algos : list string) :
  (exists a r, In a algos /\ In r (algo_data df a)
               /\ datetime_in_bounds dates (timestamp r) = false) ->
  exists t,
    for_each algos
      (fun algo =>
         timestamps <- to_datetime dates (map timestamp (algo_data df algo)) ;;
         emit (PlotDates algo timestamps (map mb_s (algo_data df algo))))
    = (t, inl OutOfBoundsDatetime)
    /\ saved_images t = []
    /\ forall m, ~ In (Print m) t.
Proof.
  induction algos as [|a l IH]; intros [a0 [r [Ha [Hr Hbad]]]]; [destruct Ha|].
  cbn [for_each]. unfold to_datetime at 1.
  destruct (forallb (datetime_in_bounds dates)
                    (map timestamp (algo_data df a))) eqn:Hall.
  - destruct Ha as [->|Ha].
    + rewrite forallb_forall in Hall.
      rewrite (Hall (timestamp r)) in Hbad by now apply in_map.
      discriminate Hbad.
    + destruct IH as [t [Hrun [Himg Hpr]]]; [now exists a0, r|].
      rewrite Hrun. eexists. split; [reflexivity|]. split; [exact Himg|].
      intros m [Hm|Hm]; [discriminate Hm|exact (Hpr m Hm)].
  - exists []. split; [reflexivity|]. split; [reflexivity|]. intros m [].
Qed.

Lemma history_lines_quiet (df : DataFrame) (algos : list string) (m : message) :
  ~ In (Print m) (map (history_line df) algos).
Proof.
  intros Hin. apply in_map_iff in Hin. destruct Hin as [a [Ha _]].
  discriminate Ha.
Qed.

(** What the history analysis does when the table cannot be shown. *)
Lemma plot_history_raises (dates : DateSupport) (df : DataFrame) (output : string) :
  (Pandas.nunique (map timestamp df) <? 2)%nat = false ->
  history_drawable dates df = false ->
  exists t,
    plot_history dates df output
    = (t, inl (if forallb (fun r => datetime_in_bounds dates (timestamp r)) df
               then ValueError else OutOfBoundsDatetime))
    /\ saved_images t = []
    /\ forall m, ~ In (Print m) t.
Proof.
  intros Hn Hd. unfold plot_history. rewrite Hn. cbv zeta.
  destruct (forallb (fun r => datetime_in_bounds dates (timestamp r)) df)
    eqn:Hall.
  - unfold history_drawable in Hd. rewrite Hall in Hd. simpl in Hd.
    rewrite forallb_forall in Hall.
    rewrite (history_loop_drawn dates df _ Hall).
    unfold xticks. rewrite Hd.
    exists (map (history_line df) (Pandas.unique (map algorithm df))).
    split; [unfold bind, raise; now rewrite app_nil_r|].
    split; [apply history_lines_images|].
    intros m. apply history_lines_quiet.
  - assert (Hbad : exists r, In r df
                             /\ datetime_in_bounds dates (timestamp r) = false).
    { clear -Hall. induction df as [|r df IH]; [discriminate|].
      simpl in Hall. apply andb_false_iff in Hall. destruct Hall as [H|H].
      - exists r. split; [now left|exact H].
      - destruct (IH H) as [r' [Hr' Hb]]. exists r'. split; [now right|exact Hb]. }
    destruct Hbad as [r [Hr Hb]].
    destruct (history_loop_raises dates df (Pandas.unique (map algorithm df)))
      as [t [Hrun [Himg Hpr]]].
    { exists (algorithm r), r. split; [|split; [|exact Hb]].
      - apply unique_In. now apply in_map.
      - now apply algo_data_In. }
    rewrite Hrun. exists t. split; [reflexivity|]. split; assumption.
Qed.

(** X14: when a table with two or more distinct timestamps cannot be shown
    by the date libraries, the history analysis ends in an exception,
    [OutOfBoundsDatetime] if some timestamp does not convert and
    [ValueError] of the date axis otherwise, and it writes no image and
    prints no line. *)
Theorem history_writes_nothing_it_cannot_date
  (dates : DateSupport) (df : DataFrame) (output : string)
  (r1 r2 : BenchmarkRecord) :
  In r1 df -> In r2 df -> timestamp r1 <> timestamp r2 ->
  history_drawable dates df = false ->
  outcome (plot_history dates df output)
  = inl (if forallb (fun r => datetime_in_bounds dates (timestamp r)) df
         then ValueError else OutOfBoundsDatetime)
  /\ saved_images (trace (plot_history dates df output)) = []
  /\ forall m, ~ In (Print m) (trace (plot_history dates df output)).
Proof.
  intros H1 H2 Hne Hd.
  destruct (plot_history_raises dates df output) as [t [Hrun [Himg Hpr]]];
    [|exact Hd|].
  - apply (nunique_ge_2 _ (timestamp r1) (timestamp r2));
      [now apply in_map|now apply in_map|exact Hne].
  - rewrite Hrun. split; [reflexivity|]. split; [exact Himg|exact Hpr].
Qed.

Lemma history_writes_nothing_it_cannot_date_witness :
  In (row 1700000000000 "SHA-256" 1 (f64 50)) df_milliseconds
  /\ In (row 1700000060000 "SHA-256" 1 (f64 52)) df_milliseconds
  /\ timestamp (row 1700000000000 "SHA-256" 1 (f64 50))
     <> timestamp (row 1700000060000 "SHA-256" 1 (f64 52))
  /\ history_drawable datetime64_ns df_milliseconds = false
  /\ outcome (plot_history datetime64_ns df_milliseconds "history_plot.png")
     = inl (if forallb (fun r => datetime_in_bounds datetime64_ns (timestamp r))
                       df_milliseconds
            then ValueError else OutOfBoundsDatetime)
  /\ saved_images (trace (plot_history datetime64_ns df_milliseconds
                                       "history_plot.png")) = []
  /\ forall m, ~ In (Print m) (trace (plot_history datetime64_ns df_milliseconds
                                                   "history_plot.png")).
Proof.
  assert (H1 : In (row 1700000000000 "SHA-256" 1 (f64 50)) df_milliseconds)
    by (left; reflexivity).
  assert (H2 : In (row 1700000060000 "SHA-256" 1 (f64 52)) df_milliseconds)
    by (right; left; reflexivity).
  assert (Hne : timestamp (row 1700000000000 "SHA-256" 1 (f64 50))
                <> timestamp (row 1700000060000 "SHA-256" 1 (f64 52)))
    by (simpl; lia).
  assert (Hd : history_drawable datetime64_ns df_milliseconds = false)
    by (vm_compute; reflexivity).
  split; [exact H1|]. split; [exact H2|]. split; [exact Hne|].
  split; [exact Hd|].
  exact (history_writes_nothing_it_cannot_date
           datetime64_ns df_milliseconds "history_plot.png" _ _ H1 H2 Hne Hd).
Defined.

Lemma plot_history_skipped (dates : DateSupport) (df : DataFrame) (output : string) :
  (Pandas.nunique (map timestamp df) <? 2)%nat = true ->
  plot_history dates df output = ([Print MsgNeedRuns], inr tt).
Proof. intros Hn. unfold plot_history. now rewrite Hn. Qed.

(** The history analysis returns, and writes its image when it draws, as
    long as the date libraries can show what it draws. *)
Lemma plot_history_returns (dates : DateSupport) (df : DataFrame) (output : string) :
  ((2 <=? Pandas.nunique (map timestamp df))%nat = true ->
   history_drawable dates df = true) ->
  plot_history dates df output = (trace (plot_history dates df output), inr tt)
  /\ saved_images (trace (plot_history dates df output))
     = if (2 <=? Pandas.nunique (map timestamp df))%nat then [output] else [].
Proof.
  intros Hd.
  destruct (Nat.leb_spec 2 (Pandas.nunique (map timestamp df))) as [Hge|Hlt].
  - rewrite plot_history_drawn; [|now apply Nat.ltb_ge|now apply Hd].
    split; [reflexivity|]. unfold trace. cbn [fst].
    rewrite saved_images_app, history_lines_images. reflexivity.
  - rewrite plot_history_skipped by now apply Nat.ltb_lt.
    split; reflexivity.
Qed.

Lemma seq_returns {B} (m : IO unit) (k : IO B) (t : list event) :
  m = (t, inr tt) -> (m ;; k) = (t ++ trace k, outcome k).
Proof. intros ->. unfold bind. destruct k. reflexivity. Qed.

Lemma seq_raises {B} (m : IO unit) (k : IO B) (t : list event) (e : exn) :
  m = (t, inl e) -> (m ;; k) = (t, inl e).
Proof. intros ->. reflexivity. Qed.

(** The script once the table is loaded. *)
Lemma main_loaded (dates : DateSupport) (fs : FileSystem) (df : DataFrame) :
  fs "bench_results.csv"%string = Some df ->
  main dates fs
  = ([Print MsgBanner; Print (MsgLoaded (length df))], inr tt) ;;
    plot_throughput_comparison df "bench_plot.png" ;;
    plot_threading_scaling df "threading_plot.png" ;;
    plot_history dates df "history_plot.png" ;;
    emit (Print MsgAllDone).
Proof.
  intros Hfs. unfold main, load_results. rewrite Hfs.
  set (rest := fun df0 : DataFrame =>
                 plot_throughput_comparison df0 "bench_plot.png" ;;
                 plot_threading_scaling df0 "threading_plot.png" ;;
                 plot_history dates df0 "history_plot.png" ;;
                 emit (Print MsgAllDone)).
  change (plot_throughput_comparison df "bench_plot.png" ;;
          plot_threading_scaling df "threading_plot.png" ;;
          plot_history dates df "history_plot.png" ;;
          emit (Print MsgAllDone)) with (rest df).
  unfold bind, emit, ret. destruct (rest df) as [t r]. reflexivity.
Qed.

(** The script up to the history analysis, on a table with rows. *)
Lemma main_until_history (dates : DateSupport) (fs : FileSystem) (df : DataFrame) :
  fs "bench_results.csv"%string = Some df -> df <> [] ->
  main dates fs
  = (( [Print MsgBanner; Print (MsgLoaded (length df))]
       ++ trace (plot_throughput_comparison df "bench_plot.png")
       ++ trace (plot_threading_scaling df "threading_plot.png")
       ++ trace (plot_history dates df "history_plot.png" ;;
                 emit (Print MsgAllDone))),
     outcome (plot_history dates df "history_plot.png" ;;
              emit (Print MsgAllDone))).
Proof.
  intros Hfs Hne. rewrite (main_loaded dates fs df Hfs).
  destruct (run_summary_head df Hne) as [algo [b [rest E]]].
  pose proof (plot_throughput_comparison_run df "bench_plot.png" _ _ _ E) as H1.
  destruct (plot_threading_scaling_returns df "threading_plot.png") as [H2 _].
  set (k3 := plot_history dates df "history_plot.png" ;; emit (Print MsgAllDone)).
  rewrite (seq_returns _ _ _ eq_refl). f_equal.
  - f_equal. rewrite (seq_returns _ _ _ H1). unfold trace at 1. cbn [fst].
    rewrite H1 at 1. unfold trace at 1. cbn [fst]. f_equal.
    rewrite (seq_returns _ _ _ H2). reflexivity.
  - rewrite (seq_returns _ _ _ H1). unfold outcome at 1. cbn [snd].
    rewrite (seq_returns _ _ _ H2). reflexivity.
Qed.

Lemma main_images_before_history (df : DataFrame) :
  df <> [] ->
  saved_images (trace (plot_throughput_comparison df "bench_plot.png")
                ++ trace (plot_threading_scaling df "threading_plot.png"))
  = ["bench_plot.png"%string]
    ++ (if (2 <=? Pandas.nunique (map threads (parallel_rows df)))%nat
        then ["threading_plot.png"%string] else []).
Proof.
  intros Hne. rewrite saved_images_app.
  destruct (run_summary_head df Hne) as [algo [b [rest E]]].
  rewrite (plot_throughput_comparison_run df "bench_plot.png" _ _ _ E).
  unfold trace at 1. cbn [fst]. rewrite comparison_trace_images.
  rewrite (proj2 (plot_threading_scaling_returns df "threading_plot.png")).
  now rewrite scaling_curve_length.
Qed.

(** X12: without data the script stops early: when the results file is
    missing it prints the two diagnostic lines and exits with status 1, and
    when the file holds no row it stops with the [IndexError] of the first
    chart; in both cases nothing is drawn to a file and the later charts
    are not attempted. *)
Theorem main_stops_without_data (dates : DateSupport) (fs : FileSystem) :
  (fs "bench_results.csv"%string = None ->
   main dates fs = ([ Print MsgBanner;
                      Print (MsgNotFound "bench_results.csv");
                      Print MsgRunBenchmarksFirst ], inl (SystemExit 1)))
  /\ (fs "bench_results.csv"%string = Some [] ->
      main dates fs = ([ Print MsgBanner; Print (MsgLoaded 0);
                         BarH AbsoluteThroughput [] [] ], inl IndexError)).
Proof.
  split; intros Hfs.
  - unfold main, load_results. rewrite Hfs. reflexivity.
  - rewrite (main_loaded dates fs [] Hfs). reflexivity.
Qed.

Lemma main_stops_without_data_witness :
  fs_without_files "bench_results.csv"%string = None
  /\ main datetime64_ns fs_without_files
     = ([ Print MsgBanner;
          Print (MsgNotFound "bench_results.csv");
          Print MsgRunBenchmarksFirst ], inl (SystemExit 1))
  /\ fs_empty_table "bench_results.csv"%string = Some []
  /\ main datetime64_ns fs_empty_table
     = ([ Print MsgBanner; Print (MsgLoaded 0);
          BarH AbsoluteThroughput [] [] ], inl IndexError).
Proof.
  split; [reflexivity|]. split.
  - exact (proj1 (main_stops_without_data datetime64_ns fs_without_files)
                 eq_refl).
  - split; [reflexivity|].
    exact (proj2 (main_stops_without_data datetime64_ns fs_empty_table)
                 eq_refl).
Defined.

(** X13: on a table with at least one row whose history, if it is drawn,
    the date libraries can show, the script runs the three analyses in
    order and ends with its success line, whether or not charts were
    skipped; it always writes the comparison chart, writes the threading
    chart exactly when the parallel variant shows two or more thread
    counts, and the history chart exactly when the table has two or more
    timestamps, each to its fixed file name. *)
Theorem main_writes_the_charts_that_apply
  (dates : DateSupport) (fs : FileSystem) (df : DataFrame) :
  fs "bench_results.csv"%string = Some df ->
  df <> [] ->
  ((2 <=? Pandas.nunique (map timestamp df))%nat = true ->
   history_drawable dates df = true) ->
  outcome (main dates fs) = inr tt
  /\ last (trace (main dates fs)) (Print MsgBanner) = Print MsgAllDone
  /\ saved_images (trace (main dates fs))
     = ["bench_plot.png"%string]
       ++ (if (2 <=? Pandas.nunique (map threads (parallel_rows df)))%nat
           then ["threading_plot.png"%string] else [])
       ++ (if (2 <=? Pandas.nunique (map timestamp df))%nat
           then ["history_plot.png"%string] else []).
Proof.
  intros Hfs Hne Hd. rewrite (main_until_history dates fs df Hfs Hne).
  destruct (plot_history_returns dates df "history_plot.png" Hd) as [H3 Himg].
  rewrite (seq_returns _ _ _ H3).
  set (t1 := trace (plot_throughput_comparison df "bench_plot.png")).
  set (t2 := trace (plot_threading_scaling df "threading_plot.png")).
  set (t3 := trace (plot_history dates df "history_plot.png")).
  unfold trace, outcome, emit. cbn [fst snd].
  split; [reflexivity|]. split.
  - rewrite !app_assoc. apply last_last.
  - rewrite (app_assoc t1 t2), !saved_images_app. subst t1 t2 t3.
    rewrite <- saved_images_app, (main_images_before_history df Hne), Himg.
    simpl. now rewrite app_nil_r.
Qed.

Lemma main_writes_the_charts_that_apply_witness :
  fs_with df_full "bench_results.csv"%string = Some df_full
  /\ df_full <> []
  /\ ((2 <=? Pandas.nunique (map timestamp df_full))%nat = true ->
      history_drawable datetime64_ns df_full = true)
  /\ outcome (main datetime64_ns (fs_with df_full)) = inr tt
  /\ last (trace (main datetime64_ns (fs_with df_full))) (Print MsgBanner)
     = Print MsgAllDone
  /\ saved_images (trace (main datetime64_ns (fs_with df_full)))
     = ["bench_plot.png"%string]
       ++ (if (2 <=? Pandas.nunique (map threads (parallel_rows df_full)))%nat
           then ["threading_plot.png"%string] else [])
       ++ (if (2 <=? Pandas.nunique (map timestamp df_full))%nat
           then ["history_plot.png"%string] else []).
Proof.
  assert (H : df_full <> []) by discriminate.
  assert (Hd : (2 <=? Pandas.nunique (map timestamp df_full))%nat = true ->
               history_drawable datetime64_ns df_full = true)
    by (intros _; vm_compute; reflexivity).
  split; [reflexivity|]. split; [exact H|]. split; [exact Hd|].
  exact (main_writes_the_charts_that_apply
           datetime64_ns (fs_with df_full) df_full eq_refl H Hd).
Defined.

(** X15: when the table has rows and two or more distinct timestamps but
    its history cannot be shown by the date libraries, the script ends in
    the exception of the history analysis after the earlier charts were
    written: the comparison chart, and the threading chart if it applies,
    exist, the history chart does not, and the trace ends where the history
    analysis stopped, without the success line. *)
Theorem main_stops_at_undrawable_history
  (dates : DateSupport) (fs : FileSystem) (df : DataFrame)
  (r1 r2 : BenchmarkRecord) :
  fs "bench_results.csv"%string = Some df ->
  In r1 df -> In r2 df -> timestamp r1 <> timestamp r2 ->
  history_drawable dates df = false ->
  main dates fs
  = (( [Print MsgBanner; Print (MsgLoaded (length df))]
       ++ trace (plot_throughput_comparison df "bench_plot.png")
       ++ trace (plot_threading_scaling df "threading_plot.png")
       ++ trace (plot_history dates df "history_plot.png")),
     inl (if forallb (fun r => datetime_in_bounds dates (timestamp r)) df
          then ValueError else OutOfBoundsDatetime))
  /\ saved_images (trace (main dates fs))
     = ["bench_plot.png"%string]
       ++ (if (2 <=? Pandas.nunique (map threads (parallel_rows df)))%nat
           then ["threading_plot.png"%string] else []).
Proof.
  intros Hfs H1 H2 Hne Hd.
  assert (Hdf : df <> []) by (intros ->; destruct H1).
  destruct (plot_history_raises dates df "history_plot.png")
    as [t [Hrun [Himg _]]]; [|exact Hd|].
  { apply (nunique_ge_2 _ (timestamp r1) (timestamp r2));
      [now apply in_map|now apply in_map|exact Hne]. }
  assert (Hmain := main_until_history dates fs df Hfs Hdf).
  rewrite (seq_raises _ _ _ _ Hrun) in Hmain. rewrite Hmain, Hrun.
  set (t1 := trace (plot_throughput_comparison df "bench_plot.png")).
  set (t2 := trace (plot_threading_scaling df "threading_plot.png")).
  unfold trace, outcome. cbn [fst snd]. split; [reflexivity|].
  rewrite (app_assoc t1 t2), !saved_images_app. subst t1 t2.
  rewrite <- saved_images_app, (main_images_before_history df Hdf), Himg.
  simpl. now rewrite app_nil_r.
Qed.

Lemma main_stops_at_undrawable_history_witness :
  fs_with df_milliseconds "bench_results.csv"%string = Some df_milliseconds
  /\ In (row 1700000000000 "SHA-256" 1 (f64 50)) df_milliseconds
  /\ In (row 1700000060000 "SHA-256" 1 (f64 52)) df_milliseconds
  /\ timestamp (row 1700000000000 "SHA-256" 1 (f64 50))
     <> timestamp (row 1700000060000 "SHA-256" 1 (f64 52))
  /\ history_drawable datetime64_ns df_milliseconds = false
  /\ saved_images (trace (main datetime64_ns (fs_with df_milliseconds)))
     = ["bench_plot.png"%string]
       ++ (if (2 <=? Pandas.nunique
                       (map threads (parallel_rows df_milliseconds)))%nat
           then ["threading_plot.png"%string] else []).
Proof.
  assert (H1 : In (row 1700000000000 "SHA-256" 1 (f64 50)) df_milliseconds)
    by (left; reflexivity).
  assert (H2 : In (row 1700000060000 "SHA-256" 1 (f64 52)) df_milliseconds)
    by (right; left; reflexivity).
  assert (Hne : timestamp (row 1700000000000 "SHA-256" 1 (f64 50))
                <> timestamp (row 1700000060000 "SHA-256" 1 (f64 52)))
    by (simpl; lia).
  assert (Hd : history_drawable datetime64_ns df_milliseconds = false)
    by (vm_compute; reflexivity).
  split; [reflexivity|]. split; [exact H1|]. split; [exact H2|].
  split; [exact Hne|]. split; [exact Hd|].
  exact (proj2 (main_stops_at_undrawable_history
                  datetime64_ns (fs_with df_milliseconds) df_milliseconds
                  _ _ eq_refl H1 H2 Hne Hd)).
Defined.

(** The samples end to end. *)
Example main_on_samples :
  saved_images (trace (main datetime64_ns (fs_with df_full)))
  = ["bench_plot.png"; "threading_plot.png"; "history_plot.png"]%string
  /\ saved_images (trace (main datetime64_ns (fs_with df_scenario)))
     = ["bench_plot.png"%string]
  /\ main datetime64_ns (fs_with df_milliseconds)
     = ([ Print MsgBanner; Print (MsgLoaded 2);
          BarH AbsoluteThroughput ["SHA-256"%string] [f64 52];
          BarText AbsoluteThroughput (f64 52);
          BarH RelativePerformance ["SHA-256"%string] [f64 1];
          AxVLine 1;
          BarText RelativePerformance (f64 1);
          SaveFig "bench_plot.png";
          Print (MsgChartSaved "bench_plot.png");
          Print MsgTableHeader;
          Print (MsgTableRow "SHA-256" (f64 52) (f64 1));
          Print MsgTableFooter;
          Print MsgNoParallel ], inl OutOfBoundsDatetime)
  /\ outcome (main datetime64_ns fs_without_files) = inl (SystemExit 1).
Proof. repeat split; vm_compute; reflexivity. Qed.
